(** * Thread cleanup tool (thread-cleanup/delete.py): model and properties

    A shallow embedding of the [ThreadCleanup] class: the categorisation of
    the fetched threads, the menu state machine that turns the operator's
    answers into a selection, the paginated discovery loop and the bulk
    delete loop.

    Conventions of the embedding.
    - A thread (a JSON object of the server) is a record; a field read with
      [thread.get(...)] is an [option], the field read with
      [thread['thread_id']] is mandatory.
    - A Python [dict] whose iteration order is used (the category indexes)
      is an association list in insertion order.
    - The console input is a script: the list of the lines still to be
      read; [input()] at the end of the script raises [EOFError].
    - Instants are integers, microseconds since 1970-01-01T00:00:00Z (the
      resolution of [datetime]); a POSIX timestamp of Python is this number
      divided by 10^6, as a double. The comparisons of the tool are taken
      on the exact numbers.
    - Strings are byte strings; the built-ins are modelled on ASCII.
    - The clock and the HTTP server are oracles: a stream of clock readings
      and a transition function on an abstract server state.
    - Of the console output only the lines of the deletion step are kept;
      the menus are represented by the lists they print and choose from. *)

From Stdlib Require Import List String Ascii ZArith Lia Bool Arith.
From Stdlib Require Import Permutation Sorted DecimalString DecimalNat.
Import ListNotations.
Open Scope string_scope.
Open Scope list_scope.
Open Scope nat_scope.

Set Implicit Arguments.

(* ===================================================================== *)
(** * The Python built-ins the tool relies on *)
(* ===================================================================== *)

Module Py.

(** Exceptions that can cross a function boundary of the tool. *)
Inductive exn : Type :=
| ValueError
| EOFError
| ClientError (msg : string)      (* an aiohttp transport failure *)
| Exception (msg : string).       (* [raise Exception(...)] *)

(** ASCII white space, as [str.split()], [str.strip()] and [int()] see it. *)
Definition isspace (c : ascii) : bool :=
  let n := nat_of_ascii c in
  ((9 <=? n) && (n <=? 13)) || ((28 <=? n) && (n <=? 32)).

Definition isdigit (c : ascii) : bool :=
  let n := nat_of_ascii c in (48 <=? n) && (n <=? 57).

Definition digit_val (c : ascii) : Z := Z.of_nat (nat_of_ascii c) - 48.

(** [c in s] for a one-character needle. *)
Fixpoint contains (c : ascii) (s : string) : bool :=
  match s with
  | EmptyString => false
  | String a r => Ascii.eqb a c || contains c r
  end.

(** [s.lower()] on ASCII letters. *)
Definition lower_char (c : ascii) : ascii :=
  let n := nat_of_ascii c in
  if (65 <=? n) && (n <=? 90) then ascii_of_nat (n + 32) else c.

Fixpoint lower (s : string) : string :=
  match s with
  | EmptyString => EmptyString
  | String c r => String (lower_char c) (lower r)
  end.

(** [s.replace(c, t)] for a one-character pattern. *)
Fixpoint replace (c : ascii) (t : string) (s : string) : string :=
  match s with
  | EmptyString => EmptyString
  | String a r => if Ascii.eqb a c then String.append t (replace c t r)
                  else String a (replace c t r)
  end.

(** [s.split(sep)] for a one-character separator: empty fields are kept. *)
Fixpoint split_on (sep : ascii) (s : string) : list string :=
  match s with
  | EmptyString => [EmptyString]
  | String a r =>
      if Ascii.eqb a sep then EmptyString :: split_on sep r
      else match split_on sep r with
           | [] => [String a EmptyString]
           | w :: ws => String a w :: ws
           end
  end.

(** [s.split()]: the maximal runs of non-space characters. *)
Fixpoint split_ws_aux (cur : string) (s : string) : list string :=
  match s with
  | EmptyString => if String.eqb cur "" then [] else [cur]
  | String a r =>
      if isspace a
      then (if String.eqb cur "" then split_ws_aux "" r
            else cur :: split_ws_aux "" r)
      else split_ws_aux (String.append cur (String a EmptyString)) r
  end.

Definition split_ws (s : string) : list string := split_ws_aux "" s.

Fixpoint lstrip (s : string) : string :=
  match s with
  | String a r => if isspace a then lstrip r else s
  | EmptyString => EmptyString
  end.

Fixpoint rev_string (acc s : string) : string :=
  match s with
  | EmptyString => acc
  | String a r => rev_string (String a acc) r
  end.

Definition strip (s : string) : string :=
  rev_string "" (lstrip (rev_string "" (lstrip s))).

(** The digits of a decimal literal: single underscores may separate
    digits, as [int()] allows since Python 3.6. [seen] tells whether the
    previous character was a digit. *)
Fixpoint int_digits (acc : Z) (seen : bool) (s : string) : option Z :=
  match s with
  | EmptyString => if seen then Some acc else None
  | String c r =>
      if isdigit c then int_digits (10 * acc + digit_val c) true r
      else if Ascii.eqb c "_" && seen then int_digits acc false r
      else None
  end.

(** [int(s)] for a [str] in base ten: [None] stands for [ValueError]. *)
Definition int (s : string) : option Z :=
  match strip s with
  | String "+" r => int_digits 0 false r
  | String "-" r => option_map Z.opp (int_digits 0 false r)
  | t => int_digits 0 false t
  end.

(** [str(n)] and [f'{n}'] for a natural number. *)
Definition str_nat (n : nat) : string :=
  NilZero.string_of_uint (Nat.to_uint n).

End Py.

(* ===================================================================== *)
(** * [datetime]: parsing ISO-8601 text and taking POSIX timestamps *)
(* ===================================================================== *)

(** [datetime.fromisoformat] is modelled with the grammar it documents for
    the interpreters that need the ['Z'] replacement the tool performs:
    [YYYY-MM-DD[*HH[:MM[:SS[.fff[fff]]]][+HH:MM[:SS[.ffffff]]]]], where [*]
    is any one character. [None] stands for [ValueError]. *)

Module Datetime.

Local Open Scope Z_scope.

Record datetime : Type := mkDatetime {
  year : Z; month : Z; day : Z;
  hour : Z; minute : Z; second : Z; microsecond : Z;
  tzinfo : option Z      (* UTC offset in microseconds; [None] = naive *)
}.

Fixpoint digits (acc : Z) (s : string) : option Z :=
  match s with
  | EmptyString => Some acc
  | String c r => if Py.isdigit c then digits (10 * acc + Py.digit_val c) r
                  else None
  end.

(** Exactly [n] decimal digits. *)
Definition fixed_digits (n : nat) (s : string) : option Z :=
  if Nat.eqb (String.length s) n then digits 0 s else None.

Definition is_leap (y : Z) : bool :=
  (y mod 4 =? 0) && (negb (y mod 100 =? 0) || (y mod 400 =? 0)).

Definition days_in_month (y m : Z) : Z :=
  if m =? 2 then (if is_leap y then 29 else 28)
  else if (m =? 4) || (m =? 6) || (m =? 9) || (m =? 11) then 30
  else 31.

(** Days from 1970-01-01 to the proleptic Gregorian date [y-m-d]. *)
Definition days_from_civil (y m d : Z) : Z :=
  let y' := if m <=? 2 then y - 1 else y in
  let era := y' / 400 in
  let yoe := y' - era * 400 in
  let mp := if m >? 2 then m - 3 else m + 9 in
  let doy := (153 * mp + 2) / 5 + d - 1 in
  let doe := yoe * 365 + yoe / 4 - yoe / 100 + doy in
  era * 146097 + doe - 719468.

(** The first ten characters: [YYYY-MM-DD]. *)
Definition parse_isoformat_date (dstr : string) : option (Z * Z * Z) :=
  match fixed_digits 4 (substring 0 4 dstr),
        String.get 4 dstr,
        fixed_digits 2 (substring 5 2 dstr),
        String.get 7 dstr,
        fixed_digits 2 (substring 8 2 dstr) with
  | Some y, Some "-"%char, Some m, Some "-"%char, Some d => Some (y, m, d)
  | _, _, _, _, _ => None
  end.

(** Two digits and what follows them. *)
Definition two_digits (t : string) : option (Z * string) :=
  match fixed_digits 2 (substring 0 2 t) with
  | Some v => Some (v, substring 2 (String.length t - 2) t)
  | None => None
  end.

(** [.fff] or [.ffffff]. *)
Definition parse_fraction (t : string) : option Z :=
  match t with
  | String "."%char f =>
      if Nat.eqb (String.length f) 3
      then option_map (fun v => v * 1000) (digits 0 f)
      else if Nat.eqb (String.length f) 6 then digits 0 f
      else None
  | _ => None
  end.

(** [HH[:MM[:SS[.fff[fff]]]]]. *)
Definition parse_hh_mm_ss_ff (t : string) : option (Z * Z * Z * Z) :=
  match two_digits t with
  | None => None
  | Some (h, EmptyString) => Some (h, 0, 0, 0)
  | Some (h, String ":"%char t1) =>
      match two_digits t1 with
      | None => None
      | Some (m, EmptyString) => Some (h, m, 0, 0)
      | Some (m, String ":"%char t2) =>
          match two_digits t2 with
          | None => None
          | Some (s, EmptyString) => Some (h, m, s, 0)
          | Some (s, t3) =>
              match parse_fraction t3 with
              | Some us => Some (h, m, s, us)
              | None => None
              end
          end
      | Some (_, _) => None
      end
  | Some (_, _) => None
  end.

(** Splits a time string at its first ['+'] or ['-']: the time, and the
    sign with the offset text when there is one. *)
Fixpoint split_tz (t : string) : string * option (bool * string) :=
  match t with
  | EmptyString => (EmptyString, None)
  | String c r =>
      if Ascii.eqb c "+" then (EmptyString, Some (false, r))
      else if Ascii.eqb c "-" then (EmptyString, Some (true, r))
      else let (a, b) := split_tz r in (String c a, b)
  end.

Definition day_us : Z := 86400 * 1000000.

(** The offset of a [+HH:MM[:SS[.ffffff]]] suffix, in microseconds;
    [timezone(...)] refuses offsets of a day or more. *)
Definition parse_tz (negative : bool) (tzstr : string) : option Z :=
  let n := String.length tzstr in
  if Nat.eqb n 5 || Nat.eqb n 8 || Nat.eqb n 15 then
    match parse_hh_mm_ss_ff tzstr with
    | Some (h, m, s, us) =>
        let off := ((h * 3600 + m * 60 + s) * 1000000 + us) in
        if off <? day_us then Some (if negative then - off else off)
        else None
    | None => None
    end
  else None.

Definition parse_isoformat_time (tstr : string)
  : option (Z * Z * Z * Z * option Z) :=
  let (timestr, tz) := split_tz tstr in
  match parse_hh_mm_ss_ff timestr with
  | None => None
  | Some c =>
      match tz with
      | None => Some (c, None)
      | Some (neg, tzstr) =>
          match parse_tz neg tzstr with
          | Some off => Some (c, Some off)
          | None => None
          end
      end
  end.

(** The range checks of the [datetime] constructor. *)
Definition valid_fields (y mo d h mi s us : Z) : bool :=
  (1 <=? y) && (y <=? 9999) && (1 <=? mo) && (mo <=? 12) &&
  (1 <=? d) && (d <=? days_in_month y mo) &&
  (0 <=? h) && (h <=? 23) && (0 <=? mi) && (mi <=? 59) &&
  (0 <=? s) && (s <=? 59) && (0 <=? us) && (us <=? 999999).

Definition fromisoformat (date_string : string) : option datetime :=
  let dstr := substring 0 10 date_string in
  let tstr := substring 11 (String.length date_string - 11) date_string in
  if negb (Nat.eqb (String.length dstr) 10) then None else
  match parse_isoformat_date dstr with
  | None => None
  | Some (y, mo, d) =>
      let time :=
        if String.eqb tstr "" then Some (0, 0, 0, 0, None)
        else parse_isoformat_time tstr in
      match time with
      | Some (h, mi, s, us, tz) =>
          if valid_fields y mo d h mi s us
          then Some (mkDatetime y mo d h mi s us tz)
          else None
      | None => None
      end
  end.

(** The wall-clock reading as microseconds since the epoch, were it UTC. *)
Definition civil_us (d : datetime) : Z :=
  ((days_from_civil (year d) (month d) (day d) * 86400
    + hour d * 3600 + minute d * 60 + second d) * 1000000
   + microsecond d).

(** [d.timestamp()]: an aware value is shifted by its own offset, a naive
    one is read in the local zone of the machine, given as the function
    [local_offset] from a wall-clock reading to the UTC offset in force. *)
Definition timestamp (local_offset : Z -> Z) (d : datetime) : Z :=
  match tzinfo d with
  | Some off => civil_us d - off
  | None => civil_us d - local_offset (civil_us d)
  end.

End Datetime.

(* ===================================================================== *)
(** * Data model *)
(* ===================================================================== *)

(** A Python [dict] with string keys, in insertion order. *)
Definition dict (V : Type) : Type := list (string * V).

Fixpoint dict_get {V : Type} (d : dict V) (k : string) : option V :=
  match d with
  | [] => None
  | (k', v) :: d' => if String.eqb k k' then Some v else dict_get d' k
  end.

Definition keys {V : Type} (d : dict V) : list string := map fst d.

(** A thread as the server returns it. [created_at], [status], [runs] and
    [metadata] are read with [thread.get] and may be missing; [thread_id]
    is read with [thread['thread_id']]. Only the number of runs matters;
    a run stands for itself as a string. *)
Record Thread : Type := mkThread {
  thread_id : string;
  created_at : option string;
  status : option string;
  runs : option (list string);
  metadata : option (dict string)
}.

(** [if k not in d: d[k] = []] followed by [d[k].append(t)]. *)
Fixpoint bucket_append (k : string) (t : Thread) (d : dict (list Thread))
  : dict (list Thread) :=
  match d with
  | [] => [(k, [t])]
  | (k', b) :: d' =>
      if String.eqb k k' then (k', b ++ [t]) :: d'
      else (k', b) :: bucket_append k t d'
  end.

Record Categories : Type := mkCategories {
  byGraph : dict (list Thread);
  byStatus : dict (list Thread);
  byRuns : dict (list Thread);
  allThreads : list Thread
}.

(** [len(thread.get('runs', []))]. *)
Definition run_count (thread : Thread) : nat :=
  match runs thread with
  | Some rs => List.length rs
  | None => 0
  end.

(** [thread.get('status', 'unknown')]. *)
Definition status_of (thread : Thread) : string :=
  match status thread with
  | Some s => s
  | None => "unknown"
  end.

(** The value of [thread.get('metadata') and thread['metadata'].get('graph_id')]
    when it is truthy: the metadata is a non-empty mapping and its
    ['graph_id'] entry is a non-empty string. *)
Definition graph_id_of (thread : Thread) : option string :=
  match metadata thread with
  | Some ((_ :: _) as m) =>
      match dict_get m "graph_id" with
      | Some g => if String.eqb g "" then None else Some g
      | None => None
      end
  | _ => None
  end.

(** The chain of comparisons that names the run-count bucket. *)
Definition runs_category (run_count : nat) : string :=
  if run_count =? 0 then "0 runs"
  else if run_count =? 1 then "1 run"
  else if run_count <? 5 then String.append (Py.str_nat run_count) " runs"
  else if run_count <? 10 then "5-9 runs"
  else if run_count <? 20 then "10-19 runs"
  else "20+ runs".

(** One iteration of the loop of [categorize_threads]. *)
Definition categorize_step (categories : Categories) (thread : Thread)
  : Categories :=
  let by_graph :=
    match graph_id_of thread with
    | Some graph_id => bucket_append graph_id thread (byGraph categories)
    | None => byGraph categories
    end in
  let by_status :=
    bucket_append (status_of thread) thread (byStatus categories) in
  let by_runs :=
    bucket_append (runs_category (run_count thread)) thread
                  (byRuns categories) in
  mkCategories by_graph by_status by_runs (allThreads categories).

Definition categorize_threads (threads : list Thread) : Categories :=
  let c := fold_left categorize_step threads (mkCategories [] [] [] []) in
  mkCategories (byGraph c) (byStatus c) (byRuns c) threads.

(* ===================================================================== *)
(** * Time filters *)
(* ===================================================================== *)

Definition us_per_second : Z := 1000000.

Section TimeFilters.

(** The local zone of the machine: UTC offset, in microseconds, in force
    at a wall-clock reading. *)
Variable local_offset : Z -> Z.

(** The instant a thread was created, when the loops can compute it:
    [created_at] is present and truthy and [fromisoformat] accepts it
    after the ['Z'] replacement. [None] covers both the skipped [if] and
    the [except: continue]. *)
Definition thread_time (thread : Thread) : option Z :=
  match created_at thread with
  | Some c =>
      if String.eqb c "" then None
      else option_map (Datetime.timestamp local_offset)
             (Datetime.fromisoformat (Py.replace "Z" "+00:00" c))
  | None => None
  end.

(** The loop of [select_by_time]: [start_time <= thread_time <= end_time]. *)
Definition threads_in_window (start_time end_time : Z)
           (all_threads : list Thread) : list Thread :=
  filter (fun thread =>
            match thread_time thread with
            | Some t => (start_time <=? t)%Z && (t <=? end_time)%Z
            | None => false
            end) all_threads.

(** The loop of [select_custom_date_range]: [dt.timestamp() < cutoff_time]. *)
Definition threads_before (cutoff_time : Z) (all_threads : list Thread)
  : list Thread :=
  filter (fun thread =>
            match thread_time thread with
            | Some t => (t <? cutoff_time)%Z
            | None => false
            end) all_threads.

(** The [start_time] of the four fixed choices of the time menu. *)
Definition window_start (choice : string) (now : Z) : option Z :=
  if String.eqb choice "1" then Some (now - (60 * 60) * us_per_second)%Z
  else if String.eqb choice "2"
       then Some (now - (7 * 24 * 60 * 60) * us_per_second)%Z
  else if String.eqb choice "3"
       then Some (now - (30 * 24 * 60 * 60) * us_per_second)%Z
  else if String.eqb choice "4" then Some 0%Z
  else None.

(** The cutoff the operator typed, as a timestamp: a date alone is
    completed with midnight. [None] stands for [ValueError]. *)
Definition parse_cutoff (cutoff_date : string) : option Z :=
  if Py.contains " " cutoff_date
  then option_map (Datetime.timestamp local_offset)
         (Datetime.fromisoformat cutoff_date)
  else option_map (Datetime.timestamp local_offset)
         (Datetime.fromisoformat (String.append cutoff_date " 00:00:00")).

End TimeFilters.

(* ===================================================================== *)
(** * The runs menu: ordering of the bucket labels *)
(* ===================================================================== *)

(** The sort key of [select_by_runs]; [None] stands for the [ValueError] of
    the unguarded [int(category.split('-')[0])]. *)
Definition get_runs_value (category : string) : option Z :=
  if String.eqb category "0 runs" then Some 0%Z
  else if String.eqb category "1 run" then Some 1%Z
  else if Py.contains "-" category then
    match Py.split_on "-" category with
    | w :: _ => Py.int w
    | [] => None
    end
  else if String.eqb category "20+ runs" then Some 20%Z
  else match Py.split_ws category with
       | w :: _ => match Py.int w with
                   | Some v => Some v
                   | None => Some 0%Z
                   end
       | [] => Some 0%Z
       end.

(** [list.sort(key=...)] is stable: an element goes before the first one
    whose key is not smaller. *)
Fixpoint insert_keyed (x : Z * string) (l : list (Z * string))
  : list (Z * string) :=
  match l with
  | [] => [x]
  | y :: l' => if (fst x <=? fst y)%Z then x :: l
               else y :: insert_keyed x l'
  end.

Definition sort_keyed (l : list (Z * string)) : list (Z * string) :=
  fold_right insert_keyed [] l.

(** The keys are computed for every element before anything is moved. *)
Fixpoint with_keys (l : list string) : option (list (Z * string)) :=
  match l with
  | [] => Some []
  | c :: l' =>
      match get_runs_value c, with_keys l' with
      | Some v, Some r => Some ((v, c) :: r)
      | _, _ => None
      end
  end.

(** [runs_categories] after [runs_categories.sort(key=get_runs_value)]. *)
Definition runs_categories (by_runs : dict (list Thread))
  : option (list string) :=
  option_map (fun l => map snd (sort_keyed l)) (with_keys (keys by_runs)).

(* ===================================================================== *)
(** * The selection state machine *)
(* ===================================================================== *)

(** The wall clock: the readings [datetime.now()] will return, in order. *)
Definition clock : Type := nat -> Z.

Definition tick (clk : clock) : clock := fun n => clk (S n).

(** The menu methods are mutually recursive and every recursive call is a
    [return await self.m(...)]; a pending call is a value of [call]. The
    [while] loops of the two paging methods carry their [start_index]. *)
Inductive call : Type :=
| SelectThreadsToDelete (categories : Categories) (all_threads : list Thread)
| PreviewAllThreads (all_threads : list Thread) (start_index : nat)
| SelectByTime (all_threads : list Thread)
| SelectCustomDateRange (all_threads : list Thread)
| ReviewThreads (threads all_threads : list Thread) (start_index : nat)
| ConfirmDeleteAll (all_threads : list Thread)
| SelectByStatus (by_status : dict (list Thread)) (all_threads : list Thread)
| SelectByRuns (by_runs : dict (list Thread)) (all_threads : list Thread)
| SelectByGraph (by_graph : dict (list Thread)) (all_threads : list Thread).

(** What a call ends with: the value returned ([None] is Python's [None]) or
    the exception raised, with the input and clock readings left over. *)
Inductive outcome : Type :=
| Returned (selection : option (list Thread)) (input : list string)
           (clk : clock)
| Raised (e : Py.exn) (input : list string) (clk : clock)
| OutOfFuel.

(** The shared body of [select_by_status], [select_by_runs] and
    [select_by_graph] once the list of labels is known: the three methods
    differ in the labels and in the texts they print. *)
Definition bucket_menu (labels : list string) (by_x : dict (list Thread))
           (review : list Thread -> list string -> clock -> outcome)
           (again main : list string -> clock -> outcome)
           (input : list string) (clk : clock) : outcome :=
  match input with
  | [] => Raised Py.EOFError [] clk
  | choice :: rest =>
      match Py.int choice with
      | None => Raised Py.ValueError rest clk
      | Some n =>
          let index := (n - 1)%Z in
          if (0 <=? index)%Z && (index <? Z.of_nat (List.length labels))%Z
          then
            let selected := nth (Z.to_nat index) labels "" in
            match dict_get by_x selected with
            | None => Raised (Py.Exception "KeyError") rest clk
            | Some threads_to_delete =>
                match rest with
                | [] => Raised Py.EOFError [] clk
                | review_choice :: rest' =>
                    if String.eqb review_choice "1"
                    then review threads_to_delete rest' clk
                    else if String.eqb review_choice "2"
                    then Returned (Some threads_to_delete) rest' clk
                    else if String.eqb review_choice "3"
                    then again rest' clk
                    else Returned (Some threads_to_delete) rest' clk
                end
            end
          else if (index =? Z.of_nat (List.length labels))%Z
          then main rest clk
          else Returned (Some []) rest clk
      end
  end.

Section Selection.

Variable local_offset : Z -> Z.

Fixpoint run (fuel : nat) (input : list string) (clk : clock) (c : call)
  : outcome :=
  match fuel with
  | O => OutOfFuel
  | S f =>
    let main_menu all_threads inp k :=
      run f inp k
          (SelectThreadsToDelete (categorize_threads all_threads)
                                 all_threads) in
    match c with

    | SelectThreadsToDelete categories all_threads =>
        match input with
        | [] => Raised Py.EOFError [] clk
        | choice :: rest =>
            if String.eqb choice "1"
            then run f rest clk (SelectByTime all_threads)
            else if String.eqb choice "2"
            then run f rest clk
                     (SelectByStatus (byStatus categories) all_threads)
            else if String.eqb choice "3"
            then run f rest clk
                     (SelectByRuns (byRuns (categorize_threads all_threads))
                                   all_threads)
            else if String.eqb choice "4"
            then run f rest clk
                     (SelectByGraph (byGraph (categorize_threads all_threads))
                                    all_threads)
            else if String.eqb choice "5"
            then run f rest clk (PreviewAllThreads all_threads 0)
            else if String.eqb choice "6"
            then run f rest clk (ConfirmDeleteAll all_threads)
            else if String.eqb choice "7"
            then Returned None rest clk
            else Returned None rest clk
        end

    | PreviewAllThreads all_threads start_index =>
        if List.length all_threads =? 0 then
          match input with
          | [] => Raised Py.EOFError [] clk
          | _ :: rest => main_menu all_threads rest clk
          end
        else if start_index <? List.length all_threads then
          let end_index :=
            Nat.min (start_index + 5) (List.length all_threads) in
          match input with
          | [] => Raised Py.EOFError [] clk
          | choice :: rest =>
              if end_index <? List.length all_threads then
                if String.eqb choice "1"
                then run f rest clk (PreviewAllThreads all_threads end_index)
                else if String.eqb choice "2"
                then main_menu all_threads rest clk
                else run f rest clk (PreviewAllThreads all_threads end_index)
              else main_menu all_threads rest clk
          end
        else Returned (Some []) input clk

    | SelectByTime all_threads =>
        match input with
        | [] => Raised Py.EOFError [] clk
        | choice :: rest =>
            let now := clk 0 in
            let clk := tick clk in
            match window_start choice now with
            | Some start_time =>
                let end_time := now in
                let threads_to_delete :=
                  threads_in_window local_offset start_time end_time
                                    all_threads in
                if List.length threads_to_delete =? 0
                then run f rest clk (SelectByTime all_threads)
                else
                  match rest with
                  | [] => Raised Py.EOFError [] clk
                  | review_choice :: rest' =>
                      if String.eqb review_choice "1"
                      then run f rest' clk
                               (ReviewThreads threads_to_delete all_threads 0)
                      else if String.eqb review_choice "2"
                      then Returned (Some threads_to_delete) rest' clk
                      else if String.eqb review_choice "3"
                      then run f rest' clk (SelectByTime all_threads)
                      else Returned (Some threads_to_delete) rest' clk
                  end
            | None =>
                if String.eqb choice "5"
                then run f rest clk (SelectCustomDateRange all_threads)
                else if String.eqb choice "6"
                then main_menu all_threads rest clk
                else run f rest clk (SelectByTime all_threads)
            end
        end

    | SelectCustomDateRange all_threads =>
        match input with
        | [] => Raised Py.EOFError [] clk
        | cutoff_date :: rest =>
            match parse_cutoff local_offset cutoff_date with
            | None =>
                (* except ValueError: ask again *)
                run f rest clk (SelectCustomDateRange all_threads)
            | Some cutoff_time =>
                let now := clk 0 in
                let clk := tick clk in
                if (cutoff_time >? now)%Z then
                  (* this recursive call sits inside the [try]: a
                     [ValueError] escaping from it is caught here *)
                  match run f rest clk (SelectCustomDateRange all_threads)
                  with
                  | Raised Py.ValueError rest2 clk2 =>
                      run f rest2 clk2 (SelectCustomDateRange all_threads)
                  | r => r
                  end
                else
                  let threads_to_delete :=
                    threads_before local_offset cutoff_time all_threads in
                  if List.length threads_to_delete =? 0 then
                    match rest with
                    | [] => Raised Py.EOFError [] clk
                    | choice :: rest' =>
                        if String.eqb choice "1"
                        then run f rest' clk
                                 (SelectCustomDateRange all_threads)
                        else run f rest' clk (SelectByTime all_threads)
                    end
                  else
                    match rest with
                    | [] => Raised Py.EOFError [] clk
                    | review_choice :: rest' =>
                        if String.eqb review_choice "1"
                        then run f rest' clk
                                 (ReviewThreads threads_to_delete
                                                all_threads 0)
                        else if String.eqb review_choice "2"
                        then Returned (Some threads_to_delete) rest' clk
                        else if String.eqb review_choice "3"
                        then run f rest' clk
                                 (SelectCustomDateRange all_threads)
                        else if String.eqb review_choice "4"
                        then run f rest' clk (SelectByTime all_threads)
                        else Returned (Some threads_to_delete) rest' clk
                    end
            end
        end

    | ReviewThreads threads all_threads start_index =>
        if start_index <? List.length threads then
          let end_index :=
            Nat.min (start_index + 5) (List.length threads) in
          let cancel inp k :=
            match all_threads with
            | _ :: _ => main_menu all_threads inp k
            | [] => Returned (Some []) inp k
            end in
          match input with
          | [] => Raised Py.EOFError [] clk
          | choice :: rest =>
              if end_index <? List.length threads then
                if String.eqb choice "1"
                then run f rest clk
                         (ReviewThreads threads all_threads end_index)
                else if String.eqb choice "2"
                then Returned (Some threads) rest clk
                else if String.eqb choice "3"
                then cancel rest clk
                else run f rest clk
                         (ReviewThreads threads all_threads end_index)
              else
                if String.eqb choice "1"
                then Returned (Some threads) rest clk
                else if String.eqb choice "2"
                then cancel rest clk
                else Returned (Some threads) rest clk
          end
        else Returned (Some threads) input clk

    | ConfirmDeleteAll all_threads =>
        match input with
        | [] => Raised Py.EOFError [] clk
        | initial_choice :: rest =>
            if negb (String.eqb initial_choice "1")
            then main_menu all_threads rest clk
            else
              match rest with
              | [] => Raised Py.EOFError [] clk
              | confirm1 :: rest1 =>
                  if negb (String.eqb confirm1 "DELETE ALL")
                  then main_menu all_threads rest1 clk
                  else
                    match rest1 with
                    | [] => Raised Py.EOFError [] clk
                    | confirm2 :: rest2 =>
                        if negb (String.eqb (Py.lower confirm2) "yes")
                        then main_menu all_threads rest2 clk
                        else Returned (Some all_threads) rest2 clk
                    end
              end
        end

    | SelectByStatus by_status all_threads =>
        let statuses := keys by_status in
        bucket_menu statuses by_status
          (fun threads inp k =>
             run f inp k (ReviewThreads threads all_threads 0))
          (fun inp k => run f inp k (SelectByStatus by_status all_threads))
          (main_menu all_threads)
          input clk

    | SelectByRuns by_runs all_threads =>
        match runs_categories by_runs with
        | None => Raised Py.ValueError input clk
        | Some runs_categories =>
            bucket_menu runs_categories by_runs
              (fun threads inp k =>
                 run f inp k (ReviewThreads threads all_threads 0))
              (fun inp k => run f inp k (SelectByRuns by_runs all_threads))
              (main_menu all_threads)
              input clk
        end

    | SelectByGraph by_graph all_threads =>
        let graphs := keys by_graph in
        bucket_menu graphs by_graph
          (fun threads inp k =>
             run f inp k (ReviewThreads threads all_threads 0))
          (fun inp k => run f inp k (SelectByGraph by_graph all_threads))
          (main_menu all_threads)
          input clk
    end
  end.

(** Every nested call is preceded by a prompt in the calling frame, so a
    script of [n] lines never needs more than [n + 1] nested calls. *)
Definition select (input : list string) (clk : clock) (c : call) : outcome :=
  run (S (List.length input)) input clk c.

End Selection.

(* ===================================================================== *)
(** * The HTTP collaborator *)
(* ===================================================================== *)

Inductive Request : Type :=
| POST (url : string) (limit offset : nat)     (* json={'limit', 'offset'} *)
| GET (url : string)
| DELETE (url : string).

Record Response : Type := mkResponse {
  resp_status : nat;
  resp_reason : string;
  resp_json : list Thread       (* the threads of [await response.json()] *)
}.

(** [response.ok]. *)
Definition ok (r : Response) : bool := resp_status r <? 400.

(** A request is answered, or the call raises. *)
Inductive Reply : Type :=
| Answer (r : Response)
| Fails (msg : string).

Inductive Method : Type := MPost | MGet.

Record Endpoint : Type := mkEndpoint {
  ep_url : string;
  ep_method : Method
}.

(** What the deletion step prints. *)
Inductive console : Type :=
| Deleting (n : nat)
| Cancelled
| FailedToDelete (id : string) (status : nat) (reason : string)
| ErrorDeleting (id : string) (msg : string)
| Progress (deleted total : nat)
| Summary (deleted failed : nat).

(** The value of a method that may raise. *)
Inductive result (A : Type) : Type :=
| Value (a : A)
| Raise (e : Py.exn).

Arguments Value {A} a.
Arguments Raise {A} e.

Section Network.

Variable base_url : string.

(** The server: an abstract state and its reaction to one request. *)
Variable ServerState : Type.
Variable serve : ServerState -> Request -> Reply * ServerState.

(** The server together with the requests sent so far, oldest first. *)
Record Net : Type := mkNet {
  server : ServerState;
  sent : list Request
}.

Definition send (net : Net) (req : Request) : Reply * Net :=
  let (reply, s) := serve (server net) req in
  (reply, mkNet s (sent net ++ [req])).

(** ** Deletion *)

Record Tally : Type := mkTally {
  deleted : nat;
  failed : nat;
  net_of : Net;
  printed : list console
}.

(** One iteration of the [for] loop of [delete_threads]; [total] is
    [len(threads_to_delete)]. *)
Definition delete_one (total : nat) (st : Tally) (thread : Thread) : Tally :=
  let delete_url :=
    String.append base_url (String.append "/threads/" (thread_id thread)) in
  match send (net_of st) (DELETE delete_url) with
  | (Answer response, net') =>
      if negb (ok response)
      then mkTally (deleted st) (failed st + 1) net'
             (printed st ++ [FailedToDelete (thread_id thread)
                               (resp_status response) (resp_reason response)])
      else mkTally (deleted st + 1) (failed st) net'
             (printed st ++ [Progress (deleted st + 1) total])
  | (Fails delete_error, net') =>
      mkTally (deleted st) (failed st + 1) net'
        (printed st ++ [ErrorDeleting (thread_id thread) delete_error])
  end.

(** What [delete_threads] leaves behind: its return value, the input not
    read, the network and the lines printed. *)
Record Deletion : Type := mkDeletion {
  returned : result nat;
  input_left : list string;
  net_after : Net;
  console_out : list console
}.

Definition delete_threads (threads_to_delete : option (list Thread))
           (input : list string) (net : Net) : Deletion :=
  match threads_to_delete with
  | None => mkDeletion (Value 0) input net []
  | Some [] => mkDeletion (Value 0) input net []
  | Some threads =>
      let total := List.length threads in
      match input with
      | [] => mkDeletion (Raise Py.EOFError) [] net [Deleting total]
      | confirm :: rest =>
          if negb (String.eqb (Py.lower confirm) "yes")
          then mkDeletion (Value 0) rest net [Deleting total; Cancelled]
          else
            let st := fold_left (delete_one total) threads
                        (mkTally 0 0 net [Deleting total]) in
            mkDeletion (Value (deleted st)) rest (net_of st)
              (printed st ++ [Summary (deleted st) (failed st)])
      end
  end.

(** ** Discovery *)

Definition endpoints_to_try : list Endpoint :=
  [ mkEndpoint (String.append base_url "/threads/search") MPost;
    mkEndpoint (String.append base_url "/threads") MGet;
    mkEndpoint (String.append base_url "/threads?limit=1000") MGet ].

(** The first request to an endpoint, while probing. *)
Definition probe_request (endpoint : Endpoint) : Request :=
  match ep_method endpoint with
  | MPost => POST (ep_url endpoint) 1000 0
  | MGet => GET (ep_url endpoint)
  end.

(** The probing loop: the first endpoint whose answer is [ok]. *)
Fixpoint probe (endpoints : list Endpoint) (net : Net)
  : option Endpoint * Net :=
  match endpoints with
  | [] => (None, net)
  | endpoint :: more =>
      match send net (probe_request endpoint) with
      | (Answer response, net') =>
          if ok response then (Some endpoint, net') else probe more net'
      | (Fails _, net') => probe more net'
      end
  end.

(** The request for the page at [offset]. *)
Definition page_request (working_endpoint : Endpoint) (offset : nat)
  : Request :=
  match ep_method working_endpoint with
  | MPost => POST (ep_url working_endpoint) 1000 offset
  | MGet =>
      if 0 <? offset
      then GET (String.append
                  (hd "" (Py.split_on "?" (ep_url working_endpoint)))
                  (String.append "?limit=1000&offset=" (Py.str_nat offset)))
      else GET (ep_url working_endpoint)
  end.

Inductive paging : Type :=
| Fetched (all_threads : list Thread) (net : Net)
| PagingRaised (e : Py.exn) (net : Net)
| PagingOutOfFuel.

(** The [while has_more] loop; one unit of fuel per page requested. *)
Fixpoint fetch_pages (fuel : nat) (working_endpoint : Endpoint)
         (offset : nat) (all_threads : list Thread) (net : Net) : paging :=
  match fuel with
  | O => PagingOutOfFuel
  | S f =>
      match send net (page_request working_endpoint offset) with
      | (Fails msg, net') => PagingRaised (Py.ClientError msg) net'
      | (Answer response, net') =>
          if negb (ok response)
          then PagingRaised (Py.Exception "Search request failed") net'
          else
            let threads := resp_json response in
            if List.length threads =? 0
            then Fetched all_threads net'
            else fetch_pages f working_endpoint
                   (offset + List.length threads)
                   (all_threads ++ threads) net'
      end
  end.

(** ** The whole session *)

Variable local_offset : Z -> Z.

(** How [interactive_clean] ends: it returns, or its handler calls
    [sys.exit(1)]. *)
Inductive session : Type :=
| NoThreadsFound (net : Net)
| Finished (total_deleted : nat) (d : Deletion)
| Exit1 (e : Py.exn)
| SessionOutOfFuel.

Definition interactive_clean (fuel : nat) (input : list string)
           (clk : clock) (net : Net) : session :=
  match probe endpoints_to_try net with
  | (None, _) =>
      Exit1 (Py.Exception "Could not find a working threads endpoint")
  | (Some working_endpoint, net1) =>
      match fetch_pages fuel working_endpoint 0 [] net1 with
      | PagingOutOfFuel => SessionOutOfFuel
      | PagingRaised e _ => Exit1 e
      | Fetched all_threads net2 =>
          if List.length all_threads =? 0 then NoThreadsFound net2
          else
            let categories := categorize_threads all_threads in
            match select local_offset input clk
                    (SelectThreadsToDelete categories all_threads) with
            | OutOfFuel => SessionOutOfFuel
            | Raised e _ _ => Exit1 e
            | Returned threads_to_delete rest _ =>
                let d := delete_threads threads_to_delete rest net2 in
                match returned d with
                | Raise e => Exit1 e
                | Value total_deleted => Finished total_deleted d
                end
            end
      end
  end.

End Network.

(* ===================================================================== *)
(** * Notions used in the statements *)
(* ===================================================================== *)

(** The number of threads held by an index, all buckets together. *)
Definition total_size (d : dict (list Thread)) : nat :=
  list_sum (map (fun entry => List.length (snd entry)) d).

(** The threads of all buckets, bucket after bucket. *)
Definition all_buckets (d : dict (list Thread)) : list Thread :=
  List.concat (map snd d).

(** The ['graph_id'] key exists in the metadata, whatever its value. *)
Definition has_graph_field (thread : Thread) : bool :=
  match metadata thread with
  | Some m => match dict_get m "graph_id" with
              | Some _ => true
              | None => false
              end
  | None => false
  end.

(** The thread carries a graph identifier the categorisation can use. *)
Definition has_graph_id (thread : Thread) : bool :=
  match graph_id_of thread with
  | Some _ => true
  | None => false
  end.

(** Grouping by an optional key, one index at a time: the reading of one
    of the three indexes of [categorize_threads] on its own. *)
Section Grouping.

Variable key : Thread -> option string.

Definition group_step (d : dict (list Thread)) (t : Thread)
  : dict (list Thread) :=
  match key t with
  | Some k => bucket_append k t d
  | None => d
  end.

Definition group (threads : list Thread) : dict (list Thread) :=
  fold_left group_step threads [].

Definition keyed (k : string) (t : Thread) : bool :=
  match key t with
  | Some k' => String.eqb k' k
  | None => false
  end.

Definition has_key (t : Thread) : bool :=
  match key t with
  | Some _ => true
  | None => false
  end.

End Grouping.

(** An outcome is settled for [n] when the call has ended and left at most
    [n] lines unread. *)
Definition settled (n : nat) (r : outcome) : Prop :=
  match r with
  | Returned _ i _ => List.length i <= n
  | Raised _ i _ => List.length i <= n
  | OutOfFuel => False
  end.

(** The request that deletes a thread. *)
Definition delete_request (base_url : string) (thread : Thread) : Request :=
  DELETE (String.append base_url (String.append "/threads/" (thread_id thread))).

(** The lines that report a failed deletion. *)
Definition is_failure_line (line : console) : bool :=
  match line with
  | FailedToDelete _ _ _ => true
  | ErrorDeleting _ _ => true
  | _ => false
  end.

(** The line the loop prints for a thread: progress, or a failure naming
    the thread and the HTTP status or the exception. *)
Definition reports (total : nat) (thread : Thread) (line : console) : Prop :=
  (exists n, line = Progress n total) \/
  (exists status reason,
      400 <= status /\ line = FailedToDelete (thread_id thread) status reason) \/
  (exists msg, line = ErrorDeleting (thread_id thread) msg).

(** The server's side of pagination. *)
Section Paging.

Variable ServerState : Type.
Variable serve : ServerState -> Request -> Reply * ServerState.
Variable working_endpoint : Endpoint.

(** [serves_pages offset s pages s']: asked for the page at [offset], and
    then for each next page at the previous offset plus the number of
    threads just received, the server in state [s] answers successfully
    with the non-empty pages [pages], one after the other, then with an
    empty page, which leaves it in state [s']. *)
Inductive serves_pages
  : nat -> ServerState -> list (list Thread) -> ServerState -> Prop :=
| serves_empty (offset : nat) (s s' : ServerState) (r : Response) :
    serve s (page_request working_endpoint offset) = (Answer r, s') ->
    ok r = true ->
    resp_json r = [] ->
    serves_pages offset s [] s'
| serves_page (offset : nat) (s s' s'' : ServerState) (r : Response)
              (page : list Thread) (pages : list (list Thread)) :
    serve s (page_request working_endpoint offset) = (Answer r, s') ->
    ok r = true ->
    resp_json r = page ->
    page <> [] ->
    serves_pages (offset + List.length page) s' pages s'' ->
    serves_pages offset s (page :: pages) s''.

(** The offsets asked for when the pages received are [pages]: one per
    page and one more for the empty page that ends the loop. *)
Fixpoint offsets (offset : nat) (pages : list (list Thread)) : list nat :=
  match pages with
  | [] => [offset]
  | page :: more => offset :: offsets (offset + List.length page) more
  end.

End Paging.

(** The smallest run count of the bucket a count falls in. *)
Definition lower_bound (run_count : nat) : Z :=
  if run_count <? 5 then Z.of_nat run_count
  else if run_count <? 10 then 5%Z
  else if run_count <? 20 then 10%Z
  else 20%Z.

(** The bucket labels, by ascending lower bound. *)
Definition bucket_labels : list string :=
  ["0 runs"; "1 run"; "2 runs"; "3 runs"; "4 runs";
   "5-9 runs"; "10-19 runs"; "20+ runs"].

(** The sort key of a label, as a number ([0] where the key raises). *)
Definition label_bound (category : string) : Z :=
  match get_runs_value category with
  | Some v => v
  | None => 0%Z
  end.

(** One label comes before another in the runs menu. *)
Definition bound_lt (a b : string) : Prop :=
  (label_bound a < label_bound b)%Z.

(** The entries of the runs menu as printed: position, label and size. *)
Definition runs_menu (by_runs : dict (list Thread))
  : option (list (nat * string * nat)) :=
  option_map
    (fun labels =>
       map (fun il : nat * string =>
              (fst il + 1, snd il,
               match dict_get by_runs (snd il) with
               | Some b => List.length b
               | None => 0
               end))
           (combine (seq 0 (List.length labels)) labels))
    (runs_categories by_runs).

(** One keyed label does not come after another. *)
Definition key_le (a b : Z * string) : Prop := (fst a <= fst b)%Z.


(** ** Notions for the menu machine as a whole *)

(** [rest] is what remains of [input] after some lines were read. *)
Definition is_suffix (rest input : list string) : Prop :=
  exists consumed, input = consumed ++ rest.

(** [sel] is [all_threads] with some threads left out, order kept. *)
Definition kept_from (all_threads sel : list Thread) : Prop :=
  exists f, sel = filter f all_threads.

(** The fetched threads a pending call works on. *)
Definition threads_of (c : call) : list Thread :=
  match c with
  | SelectThreadsToDelete _ all_threads => all_threads
  | PreviewAllThreads all_threads _ => all_threads
  | SelectByTime all_threads => all_threads
  | SelectCustomDateRange all_threads => all_threads
  | ReviewThreads _ all_threads _ => all_threads
  | ConfirmDeleteAll all_threads => all_threads
  | SelectByStatus _ all_threads => all_threads
  | SelectByRuns _ all_threads => all_threads
  | SelectByGraph _ all_threads => all_threads
  end.

(** A call as the tool makes it: the index it carries was computed by
    [categorize_threads] from its threads, and the threads under review
    were filtered from them. *)
Definition fresh (c : call) : Prop :=
  match c with
  | SelectThreadsToDelete categories all_threads =>
      byStatus categories = byStatus (categorize_threads all_threads)
  | SelectByStatus by_status all_threads =>
      by_status = byStatus (categorize_threads all_threads)
  | SelectByRuns by_runs all_threads =>
      by_runs = byRuns (categorize_threads all_threads)
  | SelectByGraph by_graph all_threads =>
      by_graph = byGraph (categorize_threads all_threads)
  | ReviewThreads threads all_threads _ => kept_from all_threads threads
  | _ => True
  end.

(** The main menu on freshly computed categories. *)
Definition main_menu (all_threads : list Thread) : call :=
  SelectThreadsToDelete (categorize_threads all_threads) all_threads.

(** What a well-behaved end of a call looks like: the lines left are a
    suffix of the script; a selection is taken from the threads; an
    exception is [EOFError] at the end of the script, or [ValueError]. *)
Definition sound (all_threads : list Thread) (input : list string)
           (r : outcome) : Prop :=
  match r with
  | Returned sel rest _ =>
      is_suffix rest input /\
      match sel with
      | Some s => kept_from all_threads s
      | None => True
      end
  | Raised e rest _ =>
      is_suffix rest input /\
      ((e = Py.EOFError /\ rest = []) \/ e = Py.ValueError)
  | OutOfFuel => False
  end.

(** Strings without white space: [strip] leaves them alone. *)
Fixpoint no_space (s : string) : bool :=
  match s with
  | EmptyString => true
  | String c r => negb (Py.isspace c) && no_space r
  end.

(** The distinct elements of a list, each at its first position. *)
Fixpoint first_seen (l : list string) : list string :=
  match l with
  | [] => []
  | x :: r => x :: filter (fun y => negb (String.eqb y x)) (first_seen r)
  end.

(** The keys of the threads that have one, in input order. *)
Definition key_stream (key : Thread -> option string) (l : list Thread)
  : list string :=
  flat_map (fun t => match key t with Some k => [k] | None => [] end) l.

(** The server seen from outside: the replies to a sequence of requests. *)
Section Replies.

Variable ServerState : Type.
Variable serve : ServerState -> Request -> Reply * ServerState.

Fixpoint serve_all (s : ServerState) (reqs : list Request)
  : list Reply * ServerState :=
  match reqs with
  | [] => ([], s)
  | req :: more =>
      let (reply, s') := serve s req in
      let (replies, s'') := serve_all s' more in
      (reply :: replies, s'')
  end.


End Replies.

(** A reply that lets the caller go on: an answer with a success status. *)
Definition accepted (reply : Reply) : bool :=
  match reply with
  | Answer r => ok r
  | Fails _ => false
  end.


(* ===================================================================== *)
(** * Scenarios *)
(* ===================================================================== *)

Module Scenario.

(** A machine whose local zone is UTC, one in New York (UTC-5 in winter)
    and one in Tokyo (UTC+9). *)
Definition utc : Z -> Z := fun _ => 0%Z.
Definition new_york : Z -> Z := fun _ => (- 5 * 3600 * 1000000)%Z.

(** 2024-06-01T12:00:00Z, and a clock stuck there. *)
Definition noon : Z := 1717243200000000%Z.
Definition frozen : clock := fun _ => noon.

Definition plain (id : string) : Thread :=
  mkThread id None None None None.

Definition with_runs (id : string) (n : nat) : Thread :=
  mkThread id None (Some "idle") (Some (repeat "run" n)) None.

Definition created (id when : string) : Thread :=
  mkThread id (Some when) (Some "idle") (Some []) None.

Definition in_graph (id g : string) : Thread :=
  mkThread id None (Some "idle") (Some []) (Some [("graph_id", g)]).

Definition idle_thread : Thread :=
  mkThread "t-idle" (Some "2024-01-14T23:59:59Z") (Some "idle")
           (Some []) None.

Definition completed_thread : Thread :=
  mkThread "t-done" (Some "2024-01-15T00:00:01Z") (Some "completed")
           (Some ["r1"; "r2"]) (Some [("graph_id", "agent")]).

Definition before_midnight : Thread :=
  created "early" "2024-01-14T23:59:59Z".



(** Against a clock at [noon]: created one hour before, to the second,
    and one second earlier still. *)
Definition on_the_hour : Thread := created "h" "2024-06-01T11:00:00Z".
Definition too_old : Thread := created "o" "2024-06-01T10:59:59Z".

(** A thread whose metadata has the key with an empty value. *)
Definition blank_graph : Thread := in_graph "t-blank" "".

Definition mixed_runs : list Thread :=
  [with_runs "x" 25; with_runs "y" 0; with_runs "z" 7].

Definition pair : list Thread := [idle_thread; completed_thread].

Definition three : list Thread := [plain "a"; plain "b"; plain "c"].

Definition five : list Thread :=
  [plain "a"; plain "b"; plain "c"; plain "d"; plain "e"].

(** A server that counts the requests it has seen and whose [n]-th
    request (from 1) raises when [n = 3]; every other one succeeds. *)
Definition third_raises (seen : nat) (req : Request) : Reply * nat :=
  (if seen =? 2 then Fails "connection reset"
   else Answer (mkResponse 200 "OK" []), S seen).

(** A server that answers 404 to a DELETE of thread ["b"] and 200 to
    everything else. *)
Definition missing_b (s : unit) (req : Request) : Reply * unit :=
  (match req with
   | DELETE url =>
       if String.eqb url "http://host/threads/b"
       then Answer (mkResponse 404 "Not Found" [])
       else Answer (mkResponse 200 "OK" [])
   | _ => Answer (mkResponse 200 "OK" [])
   end, tt).

(** A server holding [store] that honours the [offset] of the search
    endpoint with pages of at most two threads, accepts every DELETE and
    knows no other route. *)
Definition paged (store : list Thread) (s : unit) (req : Request)
  : Reply * unit :=
  (match req with
   | POST _ _ offset =>
       Answer (mkResponse 200 "OK" (firstn 2 (skipn offset store)))
   | DELETE _ => Answer (mkResponse 204 "No Content" [])
   | GET _ => Answer (mkResponse 404 "Not Found" [])
   end, tt).

Definition search : Endpoint := mkEndpoint "http://host/threads/search" MPost.

(** A mock server with canned answers: it serves the pages it holds, one
    per request whatever the request, and empty pages ever after. *)
Definition scripted (s : list (list Thread)) (req : Request)
  : Reply * list (list Thread) :=
  match s with
  | [] => (Answer (mkResponse 200 "OK" []), [])
  | page :: more => (Answer (mkResponse 200 "OK" page), more)
  end.



End Scenario.

(* ===================================================================== *)
(** * Properties *)
(* ===================================================================== *)

(** ** Sanity checks of the built-ins *)

Example int_plain : Py.int "12" = Some 12%Z.
Proof. reflexivity. Qed.

Example int_padded : Py.int " -7 " = Some (-7)%Z.
Proof. reflexivity. Qed.

Example int_word : Py.int "abc" = None.
Proof. reflexivity. Qed.

Example int_blank : Py.int "" = None.
Proof. reflexivity. Qed.

Example int_underscore : Py.int "1_0" = Some 10%Z /\ Py.int "1__0" = None.
Proof. split; reflexivity. Qed.

Example split_dash : Py.split_on "-" "10-19 runs" = ["10"; "19 runs"].
Proof. reflexivity. Qed.

Example split_blank : Py.split_ws " 3  runs " = ["3"; "runs"].
Proof. reflexivity. Qed.

Example str_nat_examples : Py.str_nat 0 = "0" /\ Py.str_nat 42 = "42".
Proof. split; reflexivity. Qed.

Example fromisoformat_utc :
  option_map (Datetime.timestamp Scenario.utc)
    (Datetime.fromisoformat "2024-01-15T00:00:01+00:00")
  = Some 1705276801000000%Z.
Proof. reflexivity. Qed.

Example fromisoformat_rejects_Z :
  Datetime.fromisoformat "2024-01-15T00:00:01Z" = None.
Proof. reflexivity. Qed.

Example fromisoformat_rejects_bad_day :
  Datetime.fromisoformat "2024-02-30" = None.
Proof. reflexivity. Qed.

Example timestamp_naive_is_local :
  option_map (Datetime.timestamp Scenario.new_york)
    (Datetime.fromisoformat "2024-01-15 00:00:00")
  = Some (1705276800000000 + 5 * 3600 * 1000000)%Z.
Proof. reflexivity. Qed.

(** ** Facts about the insertion-ordered indexes *)

Lemma dict_get_bucket_append (k : string) (t : Thread) (d : dict (list Thread))
      (k' : string) :
  dict_get (bucket_append k t d) k' =
  if String.eqb k' k
  then Some (match dict_get d k with Some b => b ++ [t] | None => [t] end)
  else dict_get d k'.
Proof.
  induction d as [|[k0 b0] d IH]; simpl.
  - destruct (String.eqb_spec k' k); reflexivity.
  - destruct (String.eqb_spec k k0) as [->|Hk]; simpl.
    + destruct (String.eqb_spec k' k0); reflexivity.
    + rewrite IH.
      destruct (String.eqb_spec k' k0) as [->|Hk'].
      * destruct (String.eqb_spec k0 k); [congruence | reflexivity].
      * reflexivity.
Qed.

Lemma keys_bucket_append_old (k : string) (t : Thread) (d : dict (list Thread)) :
  In k (keys d) -> keys (bucket_append k t d) = keys d.
Proof.
  induction d as [|[k0 b0] d IH]; simpl; intros H.
  - contradiction.
  - destruct (String.eqb_spec k k0) as [->|Hk]; simpl.
    + reflexivity.
    + f_equal. apply IH. destruct H; [congruence | assumption].
Qed.

Lemma keys_bucket_append_new (k : string) (t : Thread) (d : dict (list Thread)) :
  ~ In k (keys d) -> keys (bucket_append k t d) = keys d ++ [k].
Proof.
  induction d as [|[k0 b0] d IH]; simpl; intros H.
  - reflexivity.
  - destruct (String.eqb_spec k k0) as [->|Hk]; simpl.
    + exfalso. apply H. now left.
    + f_equal. apply IH. intros Hin. apply H. now right.
Qed.

Lemma NoDup_snoc {A : Type} (l : list A) (x : A) :
  NoDup l -> ~ In x l -> NoDup (l ++ [x]).
Proof.
  intros Hl Hx. apply NoDup_rev in Hl.
  rewrite <- (rev_involutive (l ++ [x])). apply NoDup_rev.
  rewrite rev_app_distr. simpl. constructor; [|assumption].
  rewrite <- in_rev. assumption.
Qed.

Lemma NoDup_keys_bucket_append (k : string) (t : Thread)
      (d : dict (list Thread)) :
  NoDup (keys d) -> NoDup (keys (bucket_append k t d)).
Proof.
  intros Hd. destruct (in_dec string_dec k (keys d)) as [Hin|Hnin].
  - rewrite keys_bucket_append_old; assumption.
  - rewrite keys_bucket_append_new by assumption.
    apply NoDup_snoc; assumption.
Qed.

Lemma all_buckets_bucket_append (k : string) (t : Thread)
      (d : dict (list Thread)) :
  Permutation (all_buckets (bucket_append k t d)) (all_buckets d ++ [t]).
Proof.
  unfold all_buckets.
  induction d as [|[k0 b0] d IH]; simpl.
  - reflexivity.
  - destruct (String.eqb_spec k k0) as [->|Hk]; simpl.
    + rewrite <- !app_assoc. apply Permutation_app_head.
      apply Permutation_app_comm.
    + rewrite <- app_assoc. apply Permutation_app_head. exact IH.
Qed.

Lemma total_size_all_buckets (d : dict (list Thread)) :
  total_size d = List.length (all_buckets d).
Proof.
  unfold total_size, all_buckets.
  induction d as [|[k b] d IH]; simpl; [reflexivity|].
  rewrite length_app, IH. reflexivity.
Qed.

Lemma dict_get_In (V : Type) (d : dict V) (k : string) (v : V) :
  dict_get d k = Some v -> In (k, v) d.
Proof.
  induction d as [|[k0 v0] d IH]; simpl; [discriminate|].
  destruct (String.eqb_spec k k0) as [->|Hk].
  - intros [= ->]. now left.
  - intros H. right. now apply IH.
Qed.

Lemma In_dict_get (V : Type) (d : dict V) (k : string) (v : V) :
  NoDup (keys d) -> In (k, v) d -> dict_get d k = Some v.
Proof.
  induction d as [|[k0 v0] d IH]; simpl; [contradiction|].
  intros Hnd [H|H].
  - injection H as -> ->. now rewrite String.eqb_refl.
  - inversion Hnd as [|? ? Hnotin Hnd']; subst.
    destruct (String.eqb_spec k k0) as [->|Hk].
    + exfalso. apply Hnotin. change k0 with (fst (k0, v)).
      apply in_map. assumption.
    + now apply IH.
Qed.

(** ** Grouping: what an index holds *)

Section GroupingFacts.

Variable key : Thread -> option string.

Lemma group_snoc (l : list Thread) (t : Thread) :
  group key (l ++ [t]) = group_step key (group key l) t.
Proof. unfold group. rewrite fold_left_app. reflexivity. Qed.

(** The bucket of a key holds, in input order, the threads with that
    key; a key without threads has no bucket. *)
Lemma group_get (l : list Thread) (k : string) :
  dict_get (group key l) k =
  match filter (keyed key k) l with
  | [] => None
  | b => Some b
  end.
Proof.
  induction l as [|t l IH] using rev_ind.
  - reflexivity.
  - rewrite group_snoc, filter_app. unfold group_step. simpl.
    unfold keyed at 2.
    destruct (key t) as [kt|] eqn:Hkt.
    + rewrite dict_get_bucket_append.
      destruct (String.eqb_spec k kt) as [->|Hk].
      * rewrite String.eqb_refl, IH.
        destruct (filter (keyed key kt) l); reflexivity.
      * destruct (String.eqb_spec kt k); [congruence|].
        rewrite app_nil_r. exact IH.
    + rewrite app_nil_r. exact IH.
Qed.

Lemma group_NoDup (l : list Thread) : NoDup (keys (group key l)).
Proof.
  induction l as [|t l IH] using rev_ind.
  - constructor.
  - rewrite group_snoc. unfold group_step.
    destruct (key t); [apply NoDup_keys_bucket_append|]; assumption.
Qed.

Lemma group_all (l : list Thread) :
  Permutation (all_buckets (group key l)) (filter (has_key key) l).
Proof.
  induction l as [|t l IH] using rev_ind.
  - reflexivity.
  - rewrite group_snoc, filter_app. unfold group_step. simpl.
    unfold has_key at 2.
    destruct (key t).
    + rewrite all_buckets_bucket_append.
      apply Permutation_app_tail. exact IH.
    + rewrite app_nil_r. exact IH.
Qed.

(** An entry of the index is the bucket of its key. *)
Lemma group_entry (l : list Thread) (k : string) (b : list Thread) :
  In (k, b) (group key l) <-> b = filter (keyed key k) l /\ b <> [].
Proof.
  split.
  - intros H. apply In_dict_get in H; [|apply group_NoDup].
    rewrite group_get in H.
    destruct (filter (keyed key k) l) eqn:E; [discriminate|].
    injection H as <-. split; [reflexivity | discriminate].
  - intros [-> Hne]. apply dict_get_In. rewrite group_get.
    destruct (filter (keyed key k) l); [contradiction | reflexivity].
Qed.

Lemma keyed_iff (k : string) (t : Thread) :
  keyed key k t = true <-> key t = Some k.
Proof.
  unfold keyed. destruct (key t) as [k'|].
  - destruct (String.eqb_spec k' k); split; congruence.
  - split; discriminate.
Qed.

(** A thread sits in the bucket of its key and in no other. *)
Lemma group_member (l : list Thread) (t : Thread) (k : string)
      (b : list Thread) :
  In (k, b) (group key l) -> (In t b <-> In t l /\ key t = Some k).
Proof.
  intros H. apply group_entry in H as [-> _].
  rewrite filter_In, keyed_iff. reflexivity.
Qed.

Lemma group_has_bucket (l : list Thread) (t : Thread) (k : string) :
  In t l -> key t = Some k ->
  exists b, In (k, b) (group key l) /\ In t b.
Proof.
  intros Hin Hk. exists (filter (keyed key k) l).
  assert (Ht : In t (filter (keyed key k) l)).
  { apply filter_In. split; [assumption|]. now apply keyed_iff. }
  split; [|exact Ht].
  apply group_entry. split; [reflexivity|].
  intros E. rewrite E in Ht. contradiction.
Qed.

End GroupingFacts.

(** The loop of [categorize_threads] fills the three indexes independently. *)
Lemma categorize_fold (l : list Thread) (c : Categories) :
  let c' := fold_left categorize_step l c in
  byGraph c' = fold_left (group_step graph_id_of) l (byGraph c) /\
  byStatus c' = fold_left (group_step (fun t => Some (status_of t))) l
                          (byStatus c) /\
  byRuns c' = fold_left
                (group_step (fun t => Some (runs_category (run_count t)))) l
                (byRuns c).
Proof.
  revert c. induction l as [|t l IH]; intros c; simpl.
  - auto.
  - specialize (IH (categorize_step c t)). simpl in IH.
    destruct IH as (Hg & Hs & Hr). rewrite Hg, Hs, Hr. auto.
Qed.

Lemma byGraph_group (threads : list Thread) :
  byGraph (categorize_threads threads) = group graph_id_of threads.
Proof. apply (categorize_fold threads (mkCategories [] [] [] [])). Qed.

Lemma byStatus_group (threads : list Thread) :
  byStatus (categorize_threads threads)
  = group (fun t => Some (status_of t)) threads.
Proof. apply (categorize_fold threads (mkCategories [] [] [] [])). Qed.

Lemma byRuns_group (threads : list Thread) :
  byRuns (categorize_threads threads)
  = group (fun t => Some (runs_category (run_count t))) threads.
Proof. apply (categorize_fold threads (mkCategories [] [] [] [])). Qed.

(** ** Categorisation *)

Lemma has_graph_id_field (t : Thread) :
  has_graph_id t = true -> has_graph_field t = true.
Proof.
  unfold has_graph_id, graph_id_of, has_graph_field.
  destruct (metadata t) as [[|e m]|]; try discriminate.
  destruct (dict_get (e :: m) "graph_id"); [reflexivity | discriminate].
Qed.

(** What the guard of the graph branch accepts. *)
Lemma has_graph_id_iff (t : Thread) :
  has_graph_id t = true <->
  exists m g, metadata t = Some m /\ dict_get m "graph_id" = Some g /\
              g <> "".
Proof.
  unfold has_graph_id, graph_id_of. split.
  - destruct (metadata t) as [[|e m]|]; try discriminate.
    destruct (dict_get (e :: m) "graph_id") as [g|] eqn:Hg; [|discriminate].
    destruct (String.eqb_spec g ""); [discriminate|].
    intros _. exists (e :: m), g. auto.
  - intros (m & g & -> & Hg & Hne).
    destruct m as [|e m]; [discriminate|].
    rewrite Hg. destruct (String.eqb_spec g ""); [contradiction | reflexivity].
Qed.

Lemma filter_all_true {A : Type} (f : A -> bool) (l : list A) :
  (forall x, In x l -> f x = true) -> filter f l = l.
Proof.
  induction l as [|a l IH]; simpl; intros H; [reflexivity|].
  rewrite (H a) by now left. f_equal. apply IH. intros x Hx. apply H. now right.
Qed.

(** C1 (as amended). For every list of threads, the status index and the
    run-count index of [categorize_threads] each hold every thread once: a
    thread sits in the bucket named by its status (by its run-count label),
    every bucket holding it has that name, names are not repeated, and the
    buckets together are a rearrangement of the input. The graph index
    holds only threads of the input whose metadata has the ['graph_id']
    key, each under its own identifier; its buckets together are a
    rearrangement of the threads whose metadata is a non-empty mapping with
    a non-empty ['graph_id'], so its total size is their number. The fourth
    index is the input itself. *)
Theorem categorize_threads_partitions (threads : list Thread) :
  let c := categorize_threads threads in
  (NoDup (keys (byStatus c)) /\
   (forall t, In t threads ->
      exists b, In (status_of t, b) (byStatus c) /\ In t b) /\
   (forall k b t, In (k, b) (byStatus c) -> In t b ->
      In t threads /\ k = status_of t) /\
   Permutation (all_buckets (byStatus c)) threads) /\
  (NoDup (keys (byRuns c)) /\
   (forall t, In t threads ->
      exists b, In (runs_category (run_count t), b) (byRuns c) /\ In t b) /\
   (forall k b t, In (k, b) (byRuns c) -> In t b ->
      In t threads /\ k = runs_category (run_count t)) /\
   Permutation (all_buckets (byRuns c)) threads) /\
  (NoDup (keys (byGraph c)) /\
   (forall k b t, In (k, b) (byGraph c) -> In t b ->
      In t threads /\ has_graph_field t = true /\ graph_id_of t = Some k) /\
   Permutation (all_buckets (byGraph c)) (filter has_graph_id threads) /\
   total_size (byGraph c) = List.length (filter has_graph_id threads) /\
   (forall t, has_graph_id t = true <->
              exists m g, metadata t = Some m /\
                          dict_get m "graph_id" = Some g /\ g <> "")) /\
  allThreads c = threads.
Proof.
  intros c. subst c.
  rewrite byStatus_group, byRuns_group, byGraph_group.
  split; [|split; [|split]].
  - split; [apply group_NoDup|]. split; [|split].
    + intros t Hin. now apply group_has_bucket.
    + intros k b t Hkb Ht. apply (@group_member _ _ t _ _ Hkb) in Ht.
      destruct Ht as [Hin E]. split; [assumption | congruence].
    + rewrite group_all. rewrite filter_all_true; [reflexivity|].
      intros; reflexivity.
  - split; [apply group_NoDup|]. split; [|split].
    + intros t Hin. now apply group_has_bucket.
    + intros k b t Hkb Ht. apply (@group_member _ _ t _ _ Hkb) in Ht.
      destruct Ht as [Hin E]. split; [assumption | congruence].
    + rewrite group_all. rewrite filter_all_true; [reflexivity|].
      intros; reflexivity.
  - split; [apply group_NoDup|]. split; [|split; [|split]].
    + intros k b t Hkb Ht. apply (@group_member _ _ t _ _ Hkb) in Ht.
      destruct Ht as [Hin E]. split; [assumption|]. split; [|assumption].
      apply has_graph_id_field. unfold has_graph_id. now rewrite E.
    + apply group_all.
    + rewrite total_size_all_buckets. apply Permutation_length, group_all.
    + intros t. apply has_graph_id_iff.
  - reflexivity.
Qed.

(** C1, the scenario of the specification: an idle thread without runs and a
    completed one with two runs and a graph identifier. *)
Lemma categorize_threads_partitions_witness :
  exists b, In (status_of Scenario.idle_thread, b)
               (byStatus (categorize_threads
                            [Scenario.idle_thread; Scenario.completed_thread]))
            /\ In Scenario.idle_thread b.
Proof.
  apply (categorize_threads_partitions
           [Scenario.idle_thread; Scenario.completed_thread]).
  simpl. left. reflexivity.
Defined.

(** C1 as stated fails: a thread whose metadata has the ['graph_id'] key
    with an empty value has the field present, and the graph index leaves
    it out. *)
Lemma graph_field_present_but_left_out :
  has_graph_field Scenario.blank_graph = true /\
  total_size (byGraph (categorize_threads [Scenario.blank_graph]))
  <> List.length (filter has_graph_field [Scenario.blank_graph]).
Proof. split; [reflexivity | discriminate]. Qed.

(** C2. The label of the run-count bucket is a function of the number of
    run records alone: 0 gives "0 runs", 1 gives "1 run", 2, 3 and 4 give
    the count followed by " runs", 5 to 9 give "5-9 runs", 10 to 19 give
    "10-19 runs", 20 and more give "20+ runs"; the counts 4, 5, 9, 10, 19
    and 20 fall on the expected side of each boundary; and every thread is
    filed under the label of its own count. *)
Theorem run_count_bucket_label :
  runs_category 0 = "0 runs" /\
  runs_category 1 = "1 run" /\
  runs_category 2 = "2 runs" /\
  runs_category 3 = "3 runs" /\
  runs_category 4 = "4 runs" /\
  (forall n, 2 <= n <= 4 ->
     runs_category n = String.append (Py.str_nat n) " runs") /\
  (forall n, 5 <= n <= 9 -> runs_category n = "5-9 runs") /\
  (forall n, 10 <= n <= 19 -> runs_category n = "10-19 runs") /\
  (forall n, 20 <= n -> runs_category n = "20+ runs") /\
  map runs_category [4; 5; 9; 10; 19; 20]
  = ["4 runs"; "5-9 runs"; "5-9 runs"; "10-19 runs"; "10-19 runs";
     "20+ runs"] /\
  (forall threads t k b,
     In (k, b) (byRuns (categorize_threads threads)) -> In t b ->
     k = runs_category (run_count t)) /\
  (forall threads t, In t threads ->
     exists b, In (runs_category (run_count t), b)
                  (byRuns (categorize_threads threads)) /\ In t b).
Proof.
  repeat split; try reflexivity.
  - intros n Hn.
    assert (n = 2 \/ n = 3 \/ n = 4) as [->|[->| ->]] by lia; reflexivity.
  - intros n Hn. unfold runs_category.
    destruct (Nat.eqb_spec n 0); [lia|].
    destruct (Nat.eqb_spec n 1); [lia|].
    destruct (Nat.ltb_spec n 5); [lia|].
    destruct (Nat.ltb_spec n 10); [reflexivity | lia].
  - intros n Hn. unfold runs_category.
    destruct (Nat.eqb_spec n 0); [lia|].
    destruct (Nat.eqb_spec n 1); [lia|].
    destruct (Nat.ltb_spec n 5); [lia|].
    destruct (Nat.ltb_spec n 10); [lia|].
    destruct (Nat.ltb_spec n 20); [reflexivity | lia].
  - intros n Hn. unfold runs_category.
    destruct (Nat.eqb_spec n 0); [lia|].
    destruct (Nat.eqb_spec n 1); [lia|].
    destruct (Nat.ltb_spec n 5); [lia|].
    destruct (Nat.ltb_spec n 10); [lia|].
    destruct (Nat.ltb_spec n 20); [lia | reflexivity].
  - intros threads t k b Hkb Ht. rewrite byRuns_group in Hkb.
    eapply group_member in Hkb. apply Hkb in Ht.
    destruct Ht as [_ E]. congruence.
  - intros threads t Hin. rewrite byRuns_group.
    now apply group_has_bucket.
Qed.

(** C2 at seven runs and at a thread with twenty-five runs. *)
Lemma run_count_bucket_label_witness :
  runs_category 7 = "5-9 runs" /\
  exists b, In ("20+ runs", b)
               (byRuns (categorize_threads
                          [Scenario.with_runs "x" 25; Scenario.with_runs "y" 0]))
            /\ In (Scenario.with_runs "x" 25) b.
Proof.
  destruct run_count_bucket_label
    as (_ & _ & _ & _ & _ & _ & H59 & _ & _ & _ & _ & Hin).
  split.
  - apply H59. lia.
  - apply (Hin [Scenario.with_runs "x" 25; Scenario.with_runs "y" 0]
               (Scenario.with_runs "x" 25)).
    simpl. left. reflexivity.
Defined.

(** ** The selection state machine always answers *)

Lemma settled_le (n m : nat) (r : outcome) :
  settled n r -> n <= m -> settled m r.
Proof. destruct r; simpl; lia. Qed.

Lemma bucket_menu_settled (labels : list string) (by_x : dict (list Thread))
      (review : list Thread -> list string -> clock -> outcome)
      (again main : list string -> clock -> outcome)
      (input : list string) (clk : clock) :
  (forall ts i k, List.length i < List.length input ->
                  settled (List.length i) (review ts i k)) ->
  (forall i k, List.length i < List.length input ->
               settled (List.length i) (again i k)) ->
  (forall i k, List.length i < List.length input ->
               settled (List.length i) (main i k)) ->
  settled (List.length input) (bucket_menu labels by_x review again main
                                           input clk).
Proof.
  intros Hr Ha Hm. unfold bucket_menu.
  destruct input as [|choice rest]; simpl; [lia|].
  destruct (Py.int choice) as [n|]; simpl; [|lia].
  destruct (_ && _).
  - destruct (dict_get by_x _); simpl; [|lia].
    destruct rest as [|review_choice rest']; simpl; [lia|].
    repeat match goal with
           | |- settled _ (if ?b then _ else _) => destruct b
           end; simpl; try lia.
    + eapply settled_le; [apply Hr|]; simpl; lia.
    + eapply settled_le; [apply Ha|]; simpl; lia.
  - destruct (_ =? _)%Z; simpl; [|lia].
    eapply settled_le; [apply Hm|]; simpl; lia.
Qed.

Section SelectionFacts.

Variable local_offset : Z -> Z.

Ltac settle IH :=
  repeat match goal with
         | |- settled _ (run _ _ _ _ _) =>
             eapply settled_le; [apply IH|]; simpl in *; lia
         | |- settled _ (Returned _ _ _) => simpl in *; lia
         | |- settled _ (Raised _ _ _) => simpl in *; lia
         | |- settled _ (if ?b then _ else _) => destruct b
         | |- settled _ (match ?x with _ => _ end) =>
             match type of x with
             | list _ => destruct x
             | option _ => destruct x
             end
         end.

Lemma run_settled (fuel : nat) :
  forall (input : list string) (clk : clock) (c : call),
    List.length input < fuel ->
    settled (List.length input) (run local_offset fuel input clk c).
Proof.
  induction fuel as [|f IH]; intros input clk c Hlen; [lia|].
  destruct c; cbn [run].
  - settle IH.
  - settle IH.
  - destruct input as [|choice rest]; [simpl; lia|].
    destruct (window_start choice (clk 0)); settle IH.
  - destruct input as [|cutoff_date rest]; [simpl; lia|].
    destruct (parse_cutoff local_offset cutoff_date); [|settle IH].
    destruct (_ >? _)%Z; [|settle IH].
    assert (H1 : settled (List.length rest)
                   (run local_offset f rest (tick clk)
                        (SelectCustomDateRange all_threads)))
      by (apply IH; simpl in *; lia).
    destruct (run local_offset f rest (tick clk)
                  (SelectCustomDateRange all_threads))
      as [sel i k|e i k|]; simpl in H1 |- *; try lia.
    destruct e; simpl; try lia.
    eapply settled_le; [apply IH|]; simpl in *; lia.
  - settle IH.
  - settle IH.
  - apply bucket_menu_settled; intros; apply IH; lia.
  - destruct (runs_categories by_runs); [|simpl; lia].
    apply bucket_menu_settled; intros; apply IH; lia.
  - apply bucket_menu_settled; intros; apply IH; lia.
Qed.

(** [select] never runs out of fuel: it returns or raises, and it does
    not read past the script. *)
Lemma select_settled (input : list string) (clk : clock) (c : call) :
  settled (List.length input) (select local_offset input clk c).
Proof. apply run_settled. lia. Qed.

End SelectionFacts.

Lemma bucket_menu_ext (labels : list string) (by_x : dict (list Thread))
      (review review' : list Thread -> list string -> clock -> outcome)
      (again again' main main' : list string -> clock -> outcome)
      (input : list string) (clk : clock) :
  (forall ts i k, List.length i < List.length input ->
                  review ts i k = review' ts i k) ->
  (forall i k, List.length i < List.length input -> again i k = again' i k) ->
  (forall i k, List.length i < List.length input -> main i k = main' i k) ->
  bucket_menu labels by_x review again main input clk
  = bucket_menu labels by_x review' again' main' input clk.
Proof.
  intros Hr Ha Hm. unfold bucket_menu.
  destruct input as [|choice rest]; [reflexivity|].
  destruct (Py.int choice) as [n|]; [|reflexivity].
  destruct (_ && _).
  - destruct (dict_get by_x _); [|reflexivity].
    destruct rest as [|review_choice rest']; [reflexivity|].
    rewrite Hr, Ha by (simpl; lia). reflexivity.
  - rewrite Hm by (simpl; lia). reflexivity.
Qed.

Section FuelFacts.

Variable local_offset : Z -> Z.

Ltac agree IH :=
  repeat match goal with
         | |- run _ _ _ _ _ = run _ _ _ _ _ =>
             apply IH; simpl in *; lia
         | |- ?x = ?x => reflexivity
         | |- (if ?b then _ else _) = (if ?b then _ else _) => destruct b
         | |- match ?x with _ => _ end = match ?x with _ => _ end =>
             match type of x with
             | list _ => destruct x
             | option _ => destruct x
             end
         end.

(** Fuel beyond the length of the script changes nothing. *)
Lemma run_fuel (f1 : nat) :
  forall (f2 : nat) (input : list string) (clk : clock) (c : call),
    List.length input < f1 -> List.length input < f2 ->
    run local_offset f1 input clk c = run local_offset f2 input clk c.
Proof.
  induction f1 as [|f1 IH]; intros f2 input clk c H1 H2; [lia|].
  destruct f2 as [|f2]; [lia|].
  destruct c; cbn [run].
  - agree IH.
  - agree IH.
  - destruct input as [|choice rest]; [reflexivity|].
    destruct (window_start choice (clk 0)); agree IH.
  - destruct input as [|cutoff_date rest]; [reflexivity|].
    destruct (parse_cutoff local_offset cutoff_date); [|agree IH].
    destruct (_ >? _)%Z; [|agree IH].
    rewrite (IH f2 rest) by (simpl in *; lia).
    pose proof (@run_settled local_offset f2 rest (tick clk)
                  (SelectCustomDateRange all_threads)) as Hs.
    destruct (run local_offset f2 rest (tick clk)
                  (SelectCustomDateRange all_threads))
      as [sel i k|e i k|]; try reflexivity.
    destruct e; try reflexivity.
    apply IH; simpl in *; lia.
  - agree IH.
  - agree IH.
  - apply bucket_menu_ext; intros; apply IH; lia.
  - destruct (runs_categories by_runs); [|reflexivity].
    apply bucket_menu_ext; intros; apply IH; lia.
  - apply bucket_menu_ext; intros; apply IH; lia.
Qed.

Lemma run_select (fuel : nat) (input : list string) (clk : clock)
      (c : call) :
  List.length input < fuel ->
  run local_offset fuel input clk c = select local_offset input clk c.
Proof. intros H. apply run_fuel; [assumption | lia]. Qed.

End FuelFacts.

(** ** The bucket menus (status, runs, graph) *)

Section BucketMenus.

Variable local_offset : Z -> Z.

(** One more than the number of labels is the "back" slot: the call
    continues as the main menu on freshly computed categories. *)
Lemma bucket_menu_back (labels : list string) (by_x : dict (list Thread))
      (review : list Thread -> list string -> clock -> outcome)
      (again main : list string -> clock -> outcome)
      (choice : string) (rest : list string) (clk : clock) :
  Py.int choice = Some (Z.of_nat (List.length labels) + 1)%Z ->
  bucket_menu labels by_x review again main (choice :: rest) clk
  = main rest clk.
Proof.
  intros H. unfold bucket_menu. rewrite H.
  replace (Z.of_nat (List.length labels) + 1 - 1)%Z
    with (Z.of_nat (List.length labels)) by lia.
  rewrite Z.ltb_irrefl, andb_false_r, Z.eqb_refl. reflexivity.
Qed.

(** A number that names neither a bucket nor the "back" slot gives the
    empty selection. *)
Lemma bucket_menu_out_of_range (labels : list string)
      (by_x : dict (list Thread))
      (review : list Thread -> list string -> clock -> outcome)
      (again main : list string -> clock -> outcome)
      (choice : string) (rest : list string) (clk : clock) (n : Z) :
  Py.int choice = Some n ->
  (n < 1 \/ Z.of_nat (List.length labels) + 1 < n)%Z ->
  bucket_menu labels by_x review again main (choice :: rest) clk
  = Returned (Some []) rest clk.
Proof.
  intros H Hn. unfold bucket_menu. rewrite H.
  destruct (Z.leb_spec 0 (n - 1)); destruct (Z.ltb_spec (n - 1)
    (Z.of_nat (List.length labels))); simpl; try lia;
    destruct (Z.eqb_spec (n - 1) (Z.of_nat (List.length labels)));
    try lia; reflexivity.
Qed.

(** A line that is not a number raises [ValueError] out of the menu. *)
Lemma bucket_menu_not_a_number (labels : list string)
      (by_x : dict (list Thread))
      (review : list Thread -> list string -> clock -> outcome)
      (again main : list string -> clock -> outcome)
      (choice : string) (rest : list string) (clk : clock) :
  Py.int choice = None ->
  bucket_menu labels by_x review again main (choice :: rest) clk
  = Raised Py.ValueError rest clk.
Proof. intros H. unfold bucket_menu. rewrite H. reflexivity. Qed.

Lemma select_by_status_back (by_status : dict (list Thread))
      (all_threads : list Thread) (choice : string) (rest : list string)
      (clk : clock) :
  Py.int choice = Some (Z.of_nat (List.length (keys by_status)) + 1)%Z ->
  select local_offset (choice :: rest) clk
         (SelectByStatus by_status all_threads)
  = select local_offset rest clk
           (SelectThreadsToDelete (categorize_threads all_threads)
                                  all_threads).
Proof.
  intros H. unfold select. cbn [run List.length].
  rewrite bucket_menu_back by assumption. reflexivity.
Qed.

Lemma select_by_graph_back (by_graph : dict (list Thread))
      (all_threads : list Thread) (choice : string) (rest : list string)
      (clk : clock) :
  Py.int choice = Some (Z.of_nat (List.length (keys by_graph)) + 1)%Z ->
  select local_offset (choice :: rest) clk
         (SelectByGraph by_graph all_threads)
  = select local_offset rest clk
           (SelectThreadsToDelete (categorize_threads all_threads)
                                  all_threads).
Proof.
  intros H. unfold select. cbn [run List.length].
  rewrite bucket_menu_back by assumption. reflexivity.
Qed.

Lemma select_by_status_out_of_range (by_status : dict (list Thread))
      (all_threads : list Thread) (choice : string) (rest : list string)
      (clk : clock) (n : Z) :
  Py.int choice = Some n ->
  (n < 1 \/ Z.of_nat (List.length (keys by_status)) + 1 < n)%Z ->
  select local_offset (choice :: rest) clk
         (SelectByStatus by_status all_threads)
  = Returned (Some []) rest clk.
Proof.
  intros H Hn. unfold select. cbn [run List.length].
  now apply bucket_menu_out_of_range with (n := n).
Qed.

End BucketMenus.

(** C3 (defect of the code). At the status, runs and graph menus a line
    that is not a number, such as ["abc"] or the empty line, is not turned
    into an empty selection: [int(choice)] raises [ValueError], no frame of
    the menus handles it on the path from the main menu, and the handler of
    [interactive_clean] ends the process with status 1. *)
Theorem bucket_menu_word_is_fatal :
  (forall tz by_x all_threads rest clk,
      select tz ("abc" :: rest) clk (SelectByStatus by_x all_threads)
      = Raised Py.ValueError rest clk /\
      select tz ("abc" :: rest) clk (SelectByGraph by_x all_threads)
      = Raised Py.ValueError rest clk /\
      exists i k,
        select tz ("abc" :: rest) clk (SelectByRuns by_x all_threads)
        = Raised Py.ValueError i k) /\
  (forall tz categories all_threads rest clk,
      select tz ("2" :: "" :: rest) clk
             (SelectThreadsToDelete categories all_threads)
      = Raised Py.ValueError rest clk) /\
  (forall tz,
      let store := [Scenario.idle_thread; Scenario.completed_thread] in
      interactive_clean "http://host" (Scenario.paged store) tz 2
        ["2"; "abc"] Scenario.frozen (mkNet tt [])
      = Exit1 _ Py.ValueError).
Proof.
  split; [|split].
  - intros. split; [reflexivity | split; [reflexivity|]].
    unfold select. cbn [run List.length].
    destruct (runs_categories by_x); eexists _, _; reflexivity.
  - intros. reflexivity.
  - intros. reflexivity.
Qed.

(** The same defect seen from a date prompt that has just refused a cutoff
    in the future: the recursive call sits inside its [try], so the
    [ValueError] of the status menu is caught there and the date is asked
    again. *)
Example value_error_caught_by_date_prompt :
  select Scenario.utc
         ["1"; "5"; "2999-01-01"; "2024-01-15"; "4"; "6"; "2"; "abc";
          "2024-01-15"; "2"]
         Scenario.frozen
         (SelectThreadsToDelete (categorize_threads Scenario.pair)
                                Scenario.pair)
  = Returned (Some [Scenario.idle_thread]) []
             (tick (tick (tick (tick (tick Scenario.frozen))))).
Proof. reflexivity. Qed.

(** The scenario of the status menu: the idle thread, deleted at once. *)
Example select_idle_by_status :
  select Scenario.utc ["2"; "1"; "2"] Scenario.frozen
         (SelectThreadsToDelete (categorize_threads Scenario.pair)
                                Scenario.pair)
  = Returned (Some [Scenario.idle_thread]) [] Scenario.frozen.
Proof. reflexivity. Qed.

(** ** Time filters *)

Section TimeFacts.

Variable local_offset : Z -> Z.

Lemma threads_in_window_In (start_time end_time : Z)
      (all_threads : list Thread) (t : Thread) :
  In t (threads_in_window local_offset start_time end_time all_threads) <->
  In t all_threads /\
  exists ts, thread_time local_offset t = Some ts /\
             (start_time <= ts <= end_time)%Z.
Proof.
  unfold threads_in_window. rewrite filter_In.
  destruct (thread_time local_offset t) as [ts|].
  - rewrite andb_true_iff, Z.leb_le, Z.leb_le. split.
    + intros [H1 H2]. split; [assumption|]. exists ts. split; [reflexivity|lia].
    + intros [H1 (ts' & [= <-] & H2)]. split; [assumption | lia].
  - split.
    + intros [_ H]. discriminate.
    + intros [_ (ts & H & _)]. discriminate.
Qed.

Lemma threads_before_In (cutoff_time : Z) (all_threads : list Thread)
      (t : Thread) :
  In t (threads_before local_offset cutoff_time all_threads) <->
  In t all_threads /\
  exists ts, thread_time local_offset t = Some ts /\ (ts < cutoff_time)%Z.
Proof.
  unfold threads_before. rewrite filter_In.
  destruct (thread_time local_offset t) as [ts|].
  - rewrite Z.ltb_lt. split.
    + intros [H1 H2]. split; [assumption|]. exists ts. split; [reflexivity|lia].
    + intros [H1 (ts' & [= <-] & H2)]. split; [assumption | lia].
  - split.
    + intros [_ H]. discriminate.
    + intros [_ (ts & H & _)]. discriminate.
Qed.



(** The same menu when the window is empty: the menu is shown again. *)
Lemma select_by_time_empty (all_threads : list Thread)
      (choice : string) (start_time : Z) (rest : list string)
      (clk : clock) :
  window_start choice (clk 0) = Some start_time ->
  threads_in_window local_offset start_time (clk 0) all_threads = [] ->
  select local_offset (choice :: rest) clk (SelectByTime all_threads)
  = select local_offset rest (tick clk) (SelectByTime all_threads).
Proof.
  intros Hw He. unfold select. cbn [run List.length].
  rewrite Hw, He. reflexivity.
Qed.


Lemma thread_time_absent (t : Thread) :
  created_at t = None -> thread_time local_offset t = None.
Proof. unfold thread_time. now intros ->. Qed.

Lemma thread_time_unparsed (t : Thread) (c : string) :
  created_at t = Some c ->
  Datetime.fromisoformat (Py.replace "Z" "+00:00" c) = None ->
  thread_time local_offset t = None.
Proof.
  unfold thread_time. intros -> ->. now destruct (String.eqb c "").
Qed.

End TimeFacts.



Example last_hour_scenario :
  select Scenario.utc ["1"; "2"] Scenario.frozen
         (SelectByTime [Scenario.too_old; Scenario.on_the_hour])
  = Returned (Some [Scenario.on_the_hour]) [] (tick Scenario.frozen).
Proof. reflexivity. Qed.




(** C10. A thread without [created_at], or whose [created_at] is not
    accepted by [fromisoformat] after the ['Z'] replacement, is kept by no
    time filter: neither by a window, "all time" included, nor by the
    custom cutoff. So "all time" can select fewer threads than there are:
    of three threads, one without a date and one with an unreadable date,
    it selects the third only. *)
Theorem time_filters_skip_unreadable :
  (forall tz t,
      created_at t = None \/
      (exists c, created_at t = Some c /\
                 Datetime.fromisoformat (Py.replace "Z" "+00:00" c) = None) ->
      (forall start_time end_time all_threads,
          ~ In t (threads_in_window tz start_time end_time all_threads)) /\
      (forall cutoff_time all_threads,
          ~ In t (threads_before tz cutoff_time all_threads))) /\
  (let all_threads :=
     [Scenario.plain "a"; Scenario.created "b" "yesterday";
      Scenario.before_midnight] in
   select Scenario.utc ["4"; "2"] Scenario.frozen (SelectByTime all_threads)
   = Returned (Some [Scenario.before_midnight]) [] (tick Scenario.frozen) /\
   List.length [Scenario.before_midnight] < List.length all_threads).
Proof.
  split.
  - intros tz t H.
    assert (Ht : thread_time tz t = None).
    { destruct H as [H|(c & Hc & Hp)].
      - now apply thread_time_absent.
      - now apply thread_time_unparsed with (c := c). }
    split.
    + intros s e l Hin. apply threads_in_window_In in Hin.
      destruct Hin as [_ (ts & Hts & _)]. congruence.
    + intros c l Hin. apply threads_before_In in Hin.
      destruct Hin as [_ (ts & Hts & _)]. congruence.
  - split; [reflexivity | simpl; lia].
Qed.

(** C10 at a thread without a creation date and the "all time" window. *)
Lemma time_filters_skip_unreadable_witness :
  ~ In (Scenario.plain "a")
       (threads_in_window Scenario.utc 0%Z Scenario.noon
                          [Scenario.plain "a"; Scenario.before_midnight]).
Proof.
  destruct time_filters_skip_unreadable as [H _].
  apply (H Scenario.utc (Scenario.plain "a")).
  left. reflexivity.
Defined.

(** ** Deletion *)

Section DeletionFacts.

Variable base_url : string.
Variable ServerState : Type.
Variable serve : ServerState -> Request -> Reply * ServerState.

Lemma count_occ_failure_app (l1 l2 : list console) :
  List.length (filter is_failure_line (l1 ++ l2))
  = List.length (filter is_failure_line l1)
    + List.length (filter is_failure_line l2).
Proof. rewrite filter_app, length_app. reflexivity. Qed.

(** The loop of [delete_threads], from any intermediate tally: one
    request and one line per thread, in order, and every thread counted
    once, as deleted or as failed. *)
Lemma delete_loop (total : nat) (threads : list Thread) :
  forall st : Tally ServerState,
    let st' := fold_left (delete_one base_url serve total) threads st in
    sent (net_of st')
    = sent (net_of st) ++ map (delete_request base_url) threads /\
    exists lines,
      printed st' = printed st ++ lines /\
      Forall2 (reports total) threads lines /\
      failed st' = failed st + List.length (filter is_failure_line lines) /\
      deleted st' + failed st'
      = deleted st + failed st + List.length threads.
Proof.
  induction threads as [|t threads IH]; intros st; simpl.
  - split; [now rewrite app_nil_r|].
    exists []. rewrite app_nil_r. repeat split; [constructor | simpl; lia | lia].
  - specialize (IH (delete_one base_url serve total st t)).
    simpl in IH. destruct IH as (Hsent & lines & Hpr & Hrep & Hf & Hsum).
    assert (Hstep :
      sent (net_of (delete_one base_url serve total st t))
      = sent (net_of st) ++ [delete_request base_url t] /\
      exists line,
        printed (delete_one base_url serve total st t)
        = printed st ++ [line] /\
        reports total t line /\
        failed (delete_one base_url serve total st t)
        = failed st + (if is_failure_line line then 1 else 0) /\
        deleted (delete_one base_url serve total st t)
        + failed (delete_one base_url serve total st t)
        = deleted st + failed st + 1).
    { unfold delete_one, send, delete_request.
      destruct (serve (server (net_of st)) _) as [[response|msg] s'];
        simpl.
      - destruct (ok response) eqn:Hok; simpl.
        + split; [reflexivity|]. eexists. split; [reflexivity|].
          split; [left; eexists; reflexivity|]. simpl. lia.
        + split; [reflexivity|]. eexists. split; [reflexivity|].
          split.
          * right; left. exists (resp_status response), (resp_reason response).
            split; [|reflexivity].
            unfold ok in Hok. apply Nat.ltb_ge in Hok. exact Hok.
          * simpl. lia.
      - split; [reflexivity|]. eexists. split; [reflexivity|].
        split; [right; right; eexists; reflexivity|]. simpl. lia. }
    destruct Hstep as (Hsent1 & line & Hpr1 & Hrep1 & Hf1 & Hsum1).
    split.
    + rewrite Hsent, Hsent1, <- app_assoc. reflexivity.
    + exists (line :: lines). repeat split.
      * rewrite Hpr, Hpr1, <- app_assoc. reflexivity.
      * constructor; assumption.
      * rewrite Hf, Hf1. simpl.
        destruct (is_failure_line line); simpl; lia.
      * lia.
Qed.


(** C8. With a non-empty selection, [delete_threads] reads one line; if
    its lower-case form is not "yes" it returns 0, and the network is as
    it was: no request has been sent. *)
Theorem delete_threads_needs_yes (threads : list Thread)
        (confirm : string) (rest : list string)
        (net : Net ServerState) :
  threads <> [] ->
  Py.lower confirm <> "yes" ->
  delete_threads base_url serve (Some threads) (confirm :: rest) net
  = mkDeletion (Value 0) rest net
               [Deleting (List.length threads); Cancelled].
Proof.
  intros Hne Hno. unfold delete_threads.
  destruct threads as [|t ts]; [contradiction|].
  destruct (String.eqb_spec (Py.lower confirm) "yes"); [contradiction|].
  reflexivity.
Qed.

End DeletionFacts.


Example delete_five_third_raises :
  let d := delete_threads "http://host" Scenario.third_raises
             (Some Scenario.five) ["YES"] (mkNet 0 []) in
  returned d = Value 4 /\
  console_out d
  = [Deleting 5; Progress 1 5; Progress 2 5;
     ErrorDeleting "c" "connection reset";
     Progress 3 5; Progress 4 5; Summary 4 1] /\
  sent (net_after d)
  = [DELETE "http://host/threads/a"; DELETE "http://host/threads/b";
     DELETE "http://host/threads/c"; DELETE "http://host/threads/d";
     DELETE "http://host/threads/e"].
Proof. repeat split. Qed.

Example delete_five_one_missing :
  let d := delete_threads "http://host" Scenario.missing_b
             (Some Scenario.five) ["yes"] (mkNet tt []) in
  returned d = Value 4 /\
  console_out d
  = [Deleting 5; Progress 1 5; FailedToDelete "b" 404 "Not Found";
     Progress 2 5; Progress 3 5; Progress 4 5; Summary 4 1].
Proof. repeat split. Qed.

(** C8 at the answer "y": nothing is deleted and nothing is sent. *)
Lemma delete_threads_needs_yes_witness :
  delete_threads "http://host" Scenario.third_raises (Some Scenario.five)
                 ["y"; "yes"] (mkNet 0 [])
  = mkDeletion (Value 0) ["yes"] (mkNet 0 []) [Deleting 5; Cancelled].
Proof.
  apply (@delete_threads_needs_yes "http://host" nat Scenario.third_raises
           Scenario.five "y" ["yes"] (mkNet 0 [])).
  - discriminate.
  - discriminate.
Defined.

Example confirmation_answers :
  map (fun a => String.eqb (Py.lower a) "yes")
      ["yes"; "YES"; "Yes"; "y"; "no"; ""; " yes"; "yes "; "oui"]
  = [true; true; true; false; false; false; false; false; false].
Proof. reflexivity. Qed.

(** ** Discovery *)

Section PagingFacts.

Variable ServerState : Type.
Variable serve : ServerState -> Request -> Reply * ServerState.
Variable working_endpoint : Endpoint.

Lemma fetch_pages_from (offset : nat) (s s' : ServerState)
      (pages : list (list Thread)) :
  serves_pages serve working_endpoint offset s pages s' ->
  forall (fuel : nat) (all_threads : list Thread) (log : list Request),
    List.length pages < fuel ->
    fetch_pages serve fuel working_endpoint offset all_threads
                (mkNet s log)
    = Fetched (all_threads ++ List.concat pages)
              (mkNet s' (log ++ map (page_request working_endpoint)
                                    (offsets offset pages))).
Proof.
  induction 1 as [offset s s' r Hserve Hok Hjson
                 |offset s s' s'' r page pages Hserve Hok Hjson Hne _ IH];
    intros fuel all_threads log Hfuel.
  - destruct fuel as [|fuel]; [simpl in Hfuel; lia|].
    simpl. unfold send. simpl. rewrite Hserve, Hok, Hjson. simpl.
    rewrite app_nil_r. reflexivity.
  - destruct fuel as [|fuel]; [simpl in Hfuel; lia|].
    simpl. unfold send. simpl. rewrite Hserve, Hok, Hjson. simpl.
    destruct page as [|t page]; [contradiction|].
    cbn [List.length Nat.eqb].
    rewrite IH by (simpl in Hfuel; lia).
    rewrite <- !app_assoc. reflexivity.
Qed.

(** C6. When the server answers the successive page requests with
    non-empty pages and then with an empty page, the discovery loop
    terminates: given one unit of fuel per request, it returns the
    concatenation of the non-empty pages in the order received, having
    sent one request per page plus the one answered by the empty page,
    each at the offset reached by adding the sizes of the pages received
    so far, and none after the empty page. *)
Theorem pagination_terminates (s s' : ServerState)
        (pages : list (list Thread)) (log : list Request) :
  serves_pages serve working_endpoint 0 s pages s' ->
  forall fuel, List.length pages < fuel ->
    fetch_pages serve fuel working_endpoint 0 [] (mkNet s log)
    = Fetched (List.concat pages)
              (mkNet s' (log ++ map (page_request working_endpoint)
                                    (offsets 0 pages))).
Proof.
  intros H fuel Hfuel.
  apply (fetch_pages_from H [] log Hfuel).
Qed.

End PagingFacts.

(** The mock server with canned pages serves them, whatever the endpoint:
    discovery returns their concatenation. *)
Lemma scripted_serves_pages (working_endpoint : Endpoint)
      (pages : list (list Thread)) :
  Forall (fun page => page <> []) pages ->
  forall offset,
    serves_pages Scenario.scripted working_endpoint offset pages pages [].
Proof.
  induction 1 as [|page pages Hne _ IH]; intros offset.
  - eapply serves_empty; reflexivity.
  - eapply serves_page; [reflexivity | reflexivity | reflexivity
                         | exact Hne | apply IH].
Qed.

Lemma fetch_pages_scripted (working_endpoint : Endpoint)
      (pages : list (list Thread)) :
  Forall (fun page => page <> []) pages ->
  exists net,
    fetch_pages Scenario.scripted (S (List.length pages)) working_endpoint
                0 [] (mkNet pages [])
    = Fetched (List.concat pages) net /\
    List.length (sent net) = S (List.length pages).
Proof.
  intros Hne. eexists. split.
  - apply (fetch_pages_from (scripted_serves_pages working_endpoint Hne 0)).
    lia.
  - simpl. rewrite length_map. clear Hne. generalize 0.
    induction pages as [|page pages IH]; intros n; simpl; [reflexivity|].
    now rewrite IH.
Qed.

(** A page answered with an error status ends discovery with an exception. *)
Example fetch_pages_error_status :
  fetch_pages (fun (s : unit) (_ : Request) =>
                 (Answer (mkResponse 500 "Server Error" []), s))
              5 Scenario.search 0 [] (mkNet tt [])
  = PagingRaised (Py.Exception "Search request failed")
                 (mkNet tt [POST "http://host/threads/search" 1000 0]).
Proof. reflexivity. Qed.

(** C6 on a server holding three threads and serving pages of two: the
    pages are [a; b] and [c], asked for at offsets 0, 2 and 3. *)
Lemma pagination_terminates_witness :
  fetch_pages (Scenario.paged Scenario.three) 3 Scenario.search 0 []
              (mkNet tt [])
  = Fetched Scenario.three
            (mkNet tt [POST "http://host/threads/search" 1000 0;
                       POST "http://host/threads/search" 1000 2;
                       POST "http://host/threads/search" 1000 3]).
Proof.
  apply (@pagination_terminates unit (Scenario.paged Scenario.three)
           Scenario.search tt tt
           [[Scenario.plain "a"; Scenario.plain "b"]; [Scenario.plain "c"]]
           []).
  - eapply serves_page; [reflexivity | reflexivity | reflexivity
                         | discriminate |].
    eapply serves_page; [reflexivity | reflexivity | reflexivity
                         | discriminate |].
    eapply serves_empty; reflexivity.
  - simpl. lia.
Defined.

Example page_requests_get :
  map (page_request (mkEndpoint "http://host/threads?limit=1000" MGet))
      [0; 1000; 2000]
  = [GET "http://host/threads?limit=1000";
     GET "http://host/threads?limit=1000&offset=1000";
     GET "http://host/threads?limit=1000&offset=2000"].
Proof. reflexivity. Qed.

(** A whole session: discovery, the status menu, immediate deletion. *)
Example session_delete_idle :
  match interactive_clean "http://host" (Scenario.paged Scenario.pair)
          Scenario.utc 2 ["2"; "1"; "2"; "yes"] Scenario.frozen (mkNet tt [])
  with
  | Finished total_deleted d =>
      total_deleted = 1 /\
      sent (net_after d)
      = [POST "http://host/threads/search" 1000 0;
         POST "http://host/threads/search" 1000 0;
         POST "http://host/threads/search" 1000 2;
         DELETE "http://host/threads/t-idle"]
  | _ => False
  end.
Proof. simpl. split; reflexivity. Qed.

(** ** The runs menu *)

Lemma runs_category_bound (n : nat) :
  In (runs_category n) bucket_labels /\
  get_runs_value (runs_category n) = Some (lower_bound n).
Proof.
  unfold runs_category, lower_bound.
  destruct (Nat.ltb_spec n 5) as [Hlt|Hge].
  - assert (n = 0 \/ n = 1 \/ n = 2 \/ n = 3 \/ n = 4)
      as [->|[->|[->|[->| ->]]]] by lia;
      (split; [simpl; tauto | reflexivity]).
  - destruct (Nat.eqb_spec n 0); [lia|].
    destruct (Nat.eqb_spec n 1); [lia|].
    destruct (Nat.ltb_spec n 10); [split; [simpl; tauto | reflexivity]|].
    destruct (Nat.ltb_spec n 20); split; solve [simpl; tauto | reflexivity].
Qed.

Lemma label_bound_category (n : nat) :
  label_bound (runs_category n) = lower_bound n.
Proof.
  unfold label_bound. now rewrite (proj2 (runs_category_bound n)).
Qed.

(** On the eight labels the sort key tells the labels apart. *)
Lemma label_bound_inj (a b : string) :
  In a bucket_labels -> In b bucket_labels ->
  label_bound a = label_bound b -> a = b.
Proof.
  unfold bucket_labels. simpl.
  intros Ha Hb.
  repeat (destruct Ha as [<-|Ha]; [|]); try contradiction;
    repeat (destruct Hb as [<-|Hb]; [|]); try contradiction;
    (reflexivity || (intros H; vm_compute in H; discriminate)).
Qed.

(** *** The stable sort *)

Lemma insert_keyed_perm (x : Z * string) (l : list (Z * string)) :
  Permutation (insert_keyed x l) (x :: l).
Proof.
  induction l as [|y l IH]; simpl; [reflexivity|].
  destruct (fst x <=? fst y)%Z; [reflexivity|].
  rewrite IH. apply perm_swap.
Qed.

Lemma sort_keyed_perm (l : list (Z * string)) :
  Permutation (sort_keyed l) l.
Proof.
  induction l as [|x l IH]; simpl; [reflexivity|].
  rewrite insert_keyed_perm. now constructor.
Qed.

Lemma insert_keyed_sorted (x : Z * string) (l : list (Z * string)) :
  StronglySorted key_le l -> StronglySorted key_le (insert_keyed x l).
Proof.
  induction 1 as [|y l Hs IH Hall]; simpl.
  - repeat constructor.
  - destruct (Z.leb_spec (fst x) (fst y)) as [Hle|Hgt].
    + constructor; [now constructor|].
      constructor; [exact Hle|].
      eapply Forall_impl; [|exact Hall].
      intros z Hz. unfold key_le in *. lia.
    + constructor; [exact IH|].
      apply (Permutation_Forall (Permutation_sym (insert_keyed_perm x l))).
      constructor; [unfold key_le; lia | exact Hall].
Qed.

Lemma sort_keyed_sorted (l : list (Z * string)) :
  StronglySorted key_le (sort_keyed l).
Proof.
  induction l as [|x l IH]; simpl; [constructor|].
  now apply insert_keyed_sorted.
Qed.

Lemma with_keys_map (l : list string) :
  Forall (fun c => get_runs_value c <> None) l ->
  with_keys l = Some (map (fun c => (label_bound c, c)) l).
Proof.
  induction 1 as [|c l Hc _ IH]; simpl; [reflexivity|].
  rewrite IH. unfold label_bound.
  destruct (get_runs_value c); [reflexivity | contradiction].
Qed.

(** A list sorted by a key that tells its elements apart has no ties. *)
Lemma sorted_strict (l : list string) :
  NoDup l ->
  Forall (fun c => In c bucket_labels) l ->
  StronglySorted (fun a b => (label_bound a <= label_bound b)%Z) l ->
  StronglySorted bound_lt l.
Proof.
  induction l as [|a l IH]; intros Hnd Hin Hs; [constructor|].
  inversion Hnd as [|? ? Hnotin Hnd']; subst.
  inversion Hin as [|? ? Ha Hin']; subst.
  inversion Hs as [|? ? Hs' Hall]; subst.
  constructor; [now apply IH|].
  rewrite Forall_forall in *. intros b Hb.
  specialize (Hall b Hb). unfold bound_lt.
  destruct (Z.eq_dec (label_bound a) (label_bound b)) as [E|NE]; [|lia].
  exfalso. apply Hnotin.
  rewrite (label_bound_inj Ha (Hin' b Hb) E). exact Hb.
Qed.

(** Two strictly sorted lists with the same elements are the same list. *)
Lemma sorted_unique (l1 : list string) :
  forall l2,
    StronglySorted bound_lt l1 -> StronglySorted bound_lt l2 ->
    (forall c, In c l1 <-> In c l2) -> l1 = l2.
Proof.
  induction l1 as [|a l1 IH]; intros l2 H1 H2 Hsame.
  - destruct l2 as [|b l2]; [reflexivity|].
    exfalso. apply (Hsame b). now left.
  - destruct l2 as [|b l2].
    + exfalso. apply (Hsame a). now left.
    + inversion H1 as [|? ? H1' Hall1]; subst.
      inversion H2 as [|? ? H2' Hall2]; subst.
      rewrite Forall_forall in Hall1, Hall2.
      assert (a = b) as ->.
      { destruct (proj1 (Hsame a) (or_introl eq_refl)) as [E|Ha];
          [now symmetry|].
        destruct (proj2 (Hsame b) (or_introl eq_refl)) as [E|Hb];
          [assumption|].
        specialize (Hall1 b Hb). specialize (Hall2 a Ha).
        unfold bound_lt in *. lia. }
      f_equal. apply IH; [assumption | assumption |].
      intros c. split; intros Hc.
      * destruct (proj1 (Hsame c) (or_intror Hc)) as [E|Hc']; [|assumption].
        subst c. specialize (Hall1 b Hc). unfold bound_lt in Hall1. lia.
      * destruct (proj2 (Hsame c) (or_intror Hc)) as [E|Hc']; [|assumption].
        subst c. specialize (Hall2 b Hc). unfold bound_lt in Hall2. lia.
Qed.

Lemma bucket_labels_sorted : StronglySorted bound_lt bucket_labels.
Proof.
  unfold bucket_labels.
  repeat (constructor; [|repeat constructor; unfold bound_lt;
                          vm_compute; reflexivity]).
  constructor.
Qed.

Lemma filter_sorted (f : string -> bool) (l : list string) :
  StronglySorted bound_lt l -> StronglySorted bound_lt (filter f l).
Proof.
  induction 1 as [|a l Hs IH Hall]; simpl; [constructor|].
  destruct (f a); [|assumption].
  constructor; [assumption|].
  rewrite Forall_forall in *. intros b Hb. apply Hall.
  apply filter_In in Hb. tauto.
Qed.

Lemma map_snd_keyed (l : list string) :
  map snd (map (fun c => (label_bound c, c)) l) = l.
Proof. rewrite map_map. simpl. apply map_id. Qed.

(** The keys of the run-count index are labels of the fixed list. *)
Lemma byRuns_keys (threads : list Thread) (c : string) :
  In c (keys (byRuns (categorize_threads threads))) <->
  exists t, In t threads /\ c = runs_category (run_count t).
Proof.
  rewrite byRuns_group. unfold keys. rewrite in_map_iff. split.
  - intros ([k b] & <- & Hkb). simpl.
    pose proof (proj1 (@group_entry _ _ _ _) Hkb) as [Hb Hne].
    destruct b as [|t b]; [contradiction|].
    assert (Ht : In t (t :: b)) by now left.
    apply (@group_member _ _ t _ _ Hkb) in Ht. destruct Ht as [Hin E].
    exists t. split; [assumption | congruence].
  - intros (t & Hin & ->).
    destruct (@group_has_bucket
                (fun t => Some (runs_category (run_count t))) threads t _
                Hin eq_refl) as (b & Hb & _).
    exists (runs_category (run_count t), b). split; [reflexivity | exact Hb].
Qed.

Lemma sorted_map_snd (l : list (Z * string)) :
  Forall (fun p => fst p = label_bound (snd p)) l ->
  StronglySorted key_le l ->
  StronglySorted (fun a b => (label_bound a <= label_bound b)%Z) (map snd l).
Proof.
  intros Hkey Hs. induction Hs as [|p l Hs IH Hall]; simpl; [constructor|].
  inversion Hkey as [|? ? Hp Hkey']; subst.
  constructor; [now apply IH|].
  rewrite Forall_forall in *. intros b Hb.
  apply in_map_iff in Hb. destruct Hb as (q & <- & Hq).
  specialize (Hall q Hq). unfold key_le in Hall.
  rewrite <- Hp, <- (Hkey' q Hq). exact Hall.
Qed.

(** The labels of the runs menu when the index comes from
    [categorize_threads]. *)
Lemma runs_categories_of_index (threads : list Thread) :
  let by_runs := byRuns (categorize_threads threads) in
  exists labels,
    runs_categories by_runs = Some labels /\
    Permutation labels (keys by_runs) /\
    StronglySorted bound_lt labels /\
    labels = filter (fun c => existsb (String.eqb c) (keys by_runs))
                    bucket_labels.
Proof.
  intros by_runs.
  assert (Hlab : Forall (fun c => In c bucket_labels) (keys by_runs)).
  { apply Forall_forall. intros c Hc. apply byRuns_keys in Hc.
    destruct Hc as (t & _ & ->). apply runs_category_bound. }
  assert (Hval : Forall (fun c => get_runs_value c <> None) (keys by_runs)).
  { apply Forall_forall. intros c Hc. apply byRuns_keys in Hc.
    destruct Hc as (t & _ & ->).
    rewrite (proj2 (runs_category_bound _)). discriminate. }
  set (keyed_labels := map (fun c => (label_bound c, c)) (keys by_runs)).
  set (labels := map snd (sort_keyed keyed_labels)).
  assert (Hperm : Permutation labels (keys by_runs)).
  { unfold labels. rewrite (sort_keyed_perm keyed_labels).
    unfold keyed_labels. now rewrite map_snd_keyed. }
  assert (Hstrict : StronglySorted bound_lt labels).
  { apply sorted_strict.
    - apply (Permutation_NoDup (Permutation_sym Hperm)).
      unfold by_runs. rewrite byRuns_group. apply group_NoDup.
    - apply (Permutation_Forall (Permutation_sym Hperm)). exact Hlab.
    - apply sorted_map_snd; [|apply sort_keyed_sorted].
      apply (Permutation_Forall (Permutation_sym (sort_keyed_perm _))).
      unfold keyed_labels. apply Forall_forall. intros p Hp.
      apply in_map_iff in Hp. destruct Hp as (c & <- & _). reflexivity. }
  exists labels. repeat split.
  - unfold runs_categories. rewrite (with_keys_map Hval). reflexivity.
  - exact Hperm.
  - exact Hstrict.
  - apply sorted_unique.
    + exact Hstrict.
    + apply filter_sorted, bucket_labels_sorted.
    + intros c. rewrite filter_In, existsb_exists. split.
      * intros Hc. apply (Permutation_in _ Hperm) in Hc.
        split; [now apply (proj1 (Forall_forall _ _) Hlab)|].
        exists c. split; [assumption | apply String.eqb_refl].
      * intros (_ & c' & Hc' & E). apply String.eqb_eq in E. subst c'.
        now apply (Permutation_in _ (Permutation_sym Hperm)).
Qed.

(** Picking a listed entry and asking for immediate deletion. *)
Lemma bucket_menu_pick (labels : list string) (by_x : dict (list Thread))
      (review : list Thread -> list string -> clock -> outcome)
      (again main : list string -> clock -> outcome)
      (choice : string) (rest : list string) (clk : clock)
      (i : nat) (label : string) (b : list Thread) :
  nth_error labels i = Some label ->
  Py.int choice = Some (Z.of_nat i + 1)%Z ->
  dict_get by_x label = Some b ->
  bucket_menu labels by_x review again main (choice :: "2" :: rest) clk
  = Returned (Some b) rest clk.
Proof.
  intros Hnth Hint Hget. unfold bucket_menu. rewrite Hint.
  replace (Z.of_nat i + 1 - 1)%Z with (Z.of_nat i) by lia.
  assert (Hi : i < List.length labels)
    by (apply nth_error_Some; congruence).
  destruct (Z.leb_spec 0 (Z.of_nat i)); [|lia].
  destruct (Z.ltb_spec (Z.of_nat i) (Z.of_nat (List.length labels))); [|lia].
  cbn [andb]. rewrite Nat2Z.id.
  rewrite (nth_error_nth _ _ "" Hnth), Hget. reflexivity.
Qed.

(** C9. For every list of threads, the labels of the runs menu are the
    labels of the run-count index put in ascending order of the lower
    bound of their bucket (0, 1, 2, 3, 4, 5, 10, 20): the fixed list of
    labels restricted to the buckets that exist, whatever the order in
    which categorisation created them; the number typed at the menu picks
    the bucket at that position of the sorted list. *)
Theorem runs_menu_sorted_by_lower_bound (threads : list Thread) :
  let by_runs := byRuns (categorize_threads threads) in
  (map label_bound bucket_labels = [0; 1; 2; 3; 4; 5; 10; 20]%Z /\
   forall n, label_bound (runs_category n) = lower_bound n) /\
  exists labels,
    runs_categories by_runs = Some labels /\
    Permutation labels (keys by_runs) /\
    StronglySorted bound_lt labels /\
    labels = filter (fun c => existsb (String.eqb c) (keys by_runs))
                    bucket_labels /\
    forall tz i label choice rest clk all_threads,
      nth_error labels i = Some label ->
      Py.int choice = Some (Z.of_nat i + 1)%Z ->
      exists b,
        dict_get by_runs label = Some b /\
        select tz (choice :: "2" :: rest) clk
               (SelectByRuns by_runs all_threads)
        = Returned (Some b) rest clk.
Proof.
  intros by_runs. split.
  - split; [reflexivity | apply label_bound_category].
  - destruct (runs_categories_of_index threads)
      as (labels & Hrc & Hperm & Hsorted & Hfilter).
    fold by_runs in Hrc, Hperm, Hfilter.
    exists labels. repeat split; try assumption.
    intros tz i label choice rest clk all_threads Hnth Hint.
    assert (Hkey : In label (keys by_runs)).
    { apply (Permutation_in _ Hperm). eapply nth_error_In; eassumption. }
    unfold keys in Hkey. apply in_map_iff in Hkey.
    destruct Hkey as ([k b] & Hk & Hkb). simpl in Hk. subst k.
    assert (Hget : dict_get by_runs label = Some b).
    { apply In_dict_get; [|assumption].
      unfold by_runs. rewrite byRuns_group. apply group_NoDup. }
    exists b. split; [exact Hget|].
    unfold select. cbn [run List.length]. rewrite Hrc.
    now apply bucket_menu_pick with (i := i) (label := label).
Qed.

(** C9 on three threads with 25, 0 and 7 runs: the index has the buckets
    in the order they were met, the menu has them by lower bound, and
    choice 1 is the bucket "0 runs". *)
Lemma runs_menu_sorted_by_lower_bound_witness :
  keys (byRuns (categorize_threads Scenario.mixed_runs))
  = ["20+ runs"; "0 runs"; "5-9 runs"] /\
  runs_categories (byRuns (categorize_threads Scenario.mixed_runs))
  = Some ["0 runs"; "5-9 runs"; "20+ runs"] /\
  exists b,
    dict_get (byRuns (categorize_threads Scenario.mixed_runs)) "0 runs"
    = Some b /\
    select Scenario.utc ["1"; "2"] Scenario.frozen
           (SelectByRuns (byRuns (categorize_threads Scenario.mixed_runs))
                         Scenario.mixed_runs)
    = Returned (Some b) [] Scenario.frozen.
Proof.
  split; [reflexivity|]. split; [reflexivity|].
  destruct (runs_menu_sorted_by_lower_bound Scenario.mixed_runs)
    as (_ & labels & Hrc & _ & _ & _ & Hpick).
  apply (Hpick Scenario.utc 0 "0 runs" "1" [] Scenario.frozen
               Scenario.mixed_runs).
  - vm_compute in Hrc. injection Hrc as <-. reflexivity.
  - reflexivity.
Defined.

Example runs_menu_entries :
  runs_menu (byRuns (categorize_threads Scenario.mixed_runs))
  = Some [(1, "0 runs", 1); (2, "5-9 runs", 1); (3, "20+ runs", 1)].
Proof. reflexivity. Qed.

(* ===================================================================== *)
(** * Further properties *)
(* ===================================================================== *)

(** ** The bucket menus, case by case *)

Lemma dict_get_key (V : Type) (d : dict V) (k : string) :
  In k (keys d) -> exists v, dict_get d k = Some v.
Proof.
  induction d as [|[k0 v0] d IH]; simpl; [contradiction|].
  intros H. destruct (String.eqb_spec k k0) as [->|Hk]; [eauto|].
  apply IH. destruct H; [congruence | assumption].
Qed.

(** Every way a bucket menu can end. *)
Lemma bucket_menu_cases (labels : list string) (by_x : dict (list Thread))
      (review : list Thread -> list string -> clock -> outcome)
      (again main : list string -> clock -> outcome)
      (input : list string) (clk : clock) :
  let r := bucket_menu labels by_x review again main input clk in
  (input = [] /\ r = Raised Py.EOFError [] clk) \/
  exists choice rest,
    input = choice :: rest /\
    ((Py.int choice = None /\ r = Raised Py.ValueError rest clk) \/
     exists n,
       Py.int choice = Some n /\
       ((n = Z.of_nat (List.length labels) + 1 /\ r = main rest clk)%Z \/
        ((n < 1 \/ Z.of_nat (List.length labels) + 1 < n)%Z /\
         r = Returned (Some []) rest clk) \/
        exists label,
          (1 <= n <= Z.of_nat (List.length labels))%Z /\
          nth_error labels (Z.to_nat (n - 1)) = Some label /\
          ((dict_get by_x label = None /\
            r = Raised (Py.Exception "KeyError") rest clk) \/
           exists b,
             dict_get by_x label = Some b /\
             ((rest = [] /\ r = Raised Py.EOFError [] clk) \/
              exists review_choice rest',
                rest = review_choice :: rest' /\
                ((review_choice = "1" /\ r = review b rest' clk) \/
                 (review_choice = "3" /\ r = again rest' clk) \/
                 (review_choice <> "1" /\ review_choice <> "3" /\
                  r = Returned (Some b) rest' clk)))))).
Proof.
  intros r. subst r. unfold bucket_menu.
  destruct input as [|choice rest]; [left; auto|].
  right. exists choice, rest. split; [reflexivity|].
  destruct (Py.int choice) as [n|]; [right; exists n; split; [reflexivity|]
                                    | left; auto].
  destruct (Z.leb_spec 0 (n - 1)); destruct (Z.ltb_spec (n - 1)
    (Z.of_nat (List.length labels))); cbn [andb].
  - right; right.
    assert (Hi : Z.to_nat (n - 1) < List.length labels) by lia.
    destruct (nth_error labels (Z.to_nat (n - 1))) as [label|] eqn:Hnth;
      [|apply nth_error_None in Hnth; lia].
    exists label. split; [lia|]. split; [reflexivity|].
    rewrite (nth_error_nth _ _ "" Hnth).
    destruct (dict_get by_x label) as [b|]; [right; exists b; split; [reflexivity|]
                                            | left; auto].
    destruct rest as [|review_choice rest']; [left; auto|].
    right. exists review_choice, rest'. split; [reflexivity|].
    destruct (String.eqb_spec review_choice "1"); [left; auto|].
    destruct (String.eqb_spec review_choice "2");
      [right; right; subst; repeat split; discriminate|].
    destruct (String.eqb_spec review_choice "3"); [right; left; auto|].
    right; right; auto.
  - destruct (Z.eqb_spec (n - 1) (Z.of_nat (List.length labels))).
    + left. split; [lia | reflexivity].
    + right; left. split; [lia | reflexivity].
  - right; left. destruct (Z.eqb_spec (n - 1) (Z.of_nat (List.length labels)));
      [lia|]. split; [lia | reflexivity].
  - right; left. destruct (Z.eqb_spec (n - 1) (Z.of_nat (List.length labels)));
      [lia|]. split; [lia | reflexivity].
Qed.

(** ** What the menu machine keeps *)

Lemma is_suffix_refl (l : list string) : is_suffix l l.
Proof. exists []. reflexivity. Qed.

Lemma is_suffix_cons (x : string) (rest input : list string) :
  is_suffix rest input -> is_suffix rest (x :: input).
Proof. intros [c ->]. exists (x :: c). reflexivity. Qed.

Lemma is_suffix_nil (input : list string) : is_suffix [] input.
Proof. exists input. now rewrite app_nil_r. Qed.

Lemma is_suffix_trans (a b c : list string) :
  is_suffix a b -> is_suffix b c -> is_suffix a c.
Proof. intros [x ->] [y ->]. exists (y ++ x). now rewrite app_assoc. Qed.

Lemma is_suffix_length (rest input : list string) :
  is_suffix rest input -> List.length rest <= List.length input.
Proof. intros [c ->]. rewrite length_app. lia. Qed.

Lemma kept_from_filter (f : Thread -> bool) (l : list Thread) :
  kept_from l (filter f l).
Proof. exists f. reflexivity. Qed.

Lemma kept_from_all (l : list Thread) : kept_from l l.
Proof.
  exists (fun _ => true). symmetry. apply filter_all_true. reflexivity.
Qed.

Lemma kept_from_none (l : list Thread) : kept_from l [].
Proof.
  exists (fun _ => false). induction l; simpl; congruence.
Qed.

Lemma kept_from_group (key : Thread -> option string) (l : list Thread)
      (k : string) (b : list Thread) :
  dict_get (group key l) k = Some b -> kept_from l b.
Proof.
  rewrite group_get. intros H. exists (keyed key k).
  destruct (filter (keyed key k) l); congruence.
Qed.

Lemma sound_weaken (all_threads : list Thread) (rest input : list string)
      (r : outcome) :
  sound all_threads rest r -> is_suffix rest input ->
  sound all_threads input r.
Proof.
  destruct r; simpl; try tauto; intros [H1 H2] H; split; try assumption;
    eapply is_suffix_trans; eassumption.
Qed.

Lemma bucket_menu_sound (all_threads : list Thread) (labels : list string)
      (by_x : dict (list Thread))
      (review : list Thread -> list string -> clock -> outcome)
      (again main : list string -> clock -> outcome)
      (input : list string) (clk : clock) :
  (forall label, In label labels -> In label (keys by_x)) ->
  (forall label b, dict_get by_x label = Some b -> kept_from all_threads b) ->
  (forall b i k, kept_from all_threads b ->
                 List.length i < List.length input ->
                 sound all_threads i (review b i k)) ->
  (forall i k, List.length i < List.length input ->
               sound all_threads i (again i k)) ->
  (forall i k, List.length i < List.length input ->
               sound all_threads i (main i k)) ->
  sound all_threads input
        (bucket_menu labels by_x review again main input clk).
Proof.
  intros Hkeys Hkept Hr Ha Hm.
  destruct (bucket_menu_cases labels by_x review again main input clk)
    as [[-> ->]|(choice & rest & -> & H)].
  - simpl. split; [apply is_suffix_refl | auto].
  - assert (S1 : is_suffix rest (choice :: rest))
      by (apply is_suffix_cons, is_suffix_refl).
    destruct H as [[_ ->]|(n & _ & H)]; [simpl; auto|].
    destruct H as [[_ ->]|[[_ ->]|(label & _ & Hnth & H)]].
    + eapply sound_weaken; [apply Hm; simpl; lia | exact S1].
    + simpl. split; [exact S1 | apply kept_from_none].
    + destruct H as [[Hnone _]|(b & Hb & H)].
      * exfalso. apply nth_error_In, Hkeys, dict_get_key in Hnth.
        destruct Hnth as [v Hv]. congruence.
      * destruct H as [[-> ->]|(rc & rest' & -> & H)].
        { simpl. split; [apply is_suffix_nil | auto]. }
        assert (S2 : is_suffix rest' (choice :: rc :: rest'))
          by (do 2 apply is_suffix_cons; apply is_suffix_refl).
        destruct H as [[_ ->]|[[_ ->]|(_ & _ & ->)]].
        { eapply sound_weaken; [apply Hr; [eauto | simpl; lia] | exact S2]. }
        { eapply sound_weaken; [apply Ha; simpl; lia | exact S2]. }
        { simpl. split; [exact S2 | eauto]. }
Qed.

Section Soundness.

Variable local_offset : Z -> Z.

Ltac suffix :=
  solve [ apply is_suffix_refl
        | apply is_suffix_nil
        | apply is_suffix_cons; apply is_suffix_refl
        | do 2 apply is_suffix_cons; apply is_suffix_refl
        | do 3 apply is_suffix_cons; apply is_suffix_refl ].

Ltac kept :=
  solve [ exact I
        | apply kept_from_filter
        | apply kept_from_all
        | apply kept_from_none
        | assumption
        | reflexivity ].

Ltac sound_step IH :=
  repeat match goal with
         | |- sound _ _ (run _ _ _ _ _) =>
             eapply sound_weaken;
             [apply IH; [simpl; kept | simpl in *; lia] | suffix]
         | |- sound _ _ (Returned _ _ _) => simpl; split; [suffix | kept]
         | |- sound _ _ (Raised _ _ _) =>
             simpl; split; [suffix | auto]
         | |- sound _ _ (if ?b then _ else _) => destruct b
         | |- sound _ _ (match ?x with _ => _ end) =>
             match type of x with
             | list _ => destruct x
             | option _ => destruct x
             end
         end.

Lemma run_sound (fuel : nat) :
  forall (input : list string) (clk : clock) (c : call),
    fresh c -> List.length input < fuel ->
    sound (threads_of c) input (run local_offset fuel input clk c).
Proof.
  induction fuel as [|f IH]; intros input clk c Hfresh Hlen; [lia|].
  destruct c; cbn [run threads_of]; cbn [fresh] in Hfresh.
  - sound_step IH.
  - sound_step IH.
  - destruct input as [|choice rest]; [sound_step IH|].
    destruct (window_start choice (clk 0)); sound_step IH.
  - destruct input as [|cutoff_date rest]; [sound_step IH|].
    destruct (parse_cutoff local_offset cutoff_date); [|sound_step IH].
    destruct (_ >? _)%Z; [|sound_step IH].
    assert (H1 : sound all_threads rest
                   (run local_offset f rest (tick clk)
                        (SelectCustomDateRange all_threads)))
      by (apply (IH rest (tick clk) (SelectCustomDateRange all_threads));
          [exact I | simpl in *; lia]).
    destruct (run local_offset f rest (tick clk)
                  (SelectCustomDateRange all_threads))
      as [sel i k|e i k|]; try (eapply sound_weaken; [exact H1 | suffix]).
    destruct e; try (eapply sound_weaken; [exact H1 | suffix]).
    destruct H1 as [Hs _].
    eapply sound_weaken;
      [apply (IH i k (SelectCustomDateRange all_threads));
       [exact I | apply is_suffix_length in Hs; simpl in *; lia]|].
    apply is_suffix_cons. exact Hs.
  - sound_step IH.
  - sound_step IH.
  - subst by_status. rewrite byStatus_group.
    apply bucket_menu_sound.
    + auto.
    + intros label b. apply kept_from_group.
    + intros b i k Hb Hi.
      apply (IH i k (ReviewThreads b all_threads 0)); [exact Hb | lia].
    + intros i k Hi. rewrite <- byStatus_group.
      apply (IH i k (SelectByStatus _ all_threads)); [reflexivity | lia].
    + intros i k Hi.
      apply (IH i k (SelectThreadsToDelete _ all_threads));
        [reflexivity | lia].
  - subst by_runs.
    destruct (runs_categories_of_index all_threads)
      as (labels & Hrc & Hperm & _ & _).
    rewrite Hrc. rewrite byRuns_group in *.
    apply bucket_menu_sound.
    + intros label Hl. now apply (Permutation_in _ Hperm).
    + intros label b. apply kept_from_group.
    + intros b i k Hb Hi.
      apply (IH i k (ReviewThreads b all_threads 0)); [exact Hb | lia].
    + intros i k Hi. rewrite <- byRuns_group.
      apply (IH i k (SelectByRuns _ all_threads)); [reflexivity | lia].
    + intros i k Hi.
      apply (IH i k (SelectThreadsToDelete _ all_threads));
        [reflexivity | lia].
  - subst by_graph. rewrite byGraph_group.
    apply bucket_menu_sound.
    + auto.
    + intros label b. apply kept_from_group.
    + intros b i k Hb Hi.
      apply (IH i k (ReviewThreads b all_threads 0)); [exact Hb | lia].
    + intros i k Hi. rewrite <- byGraph_group.
      apply (IH i k (SelectByGraph _ all_threads)); [reflexivity | lia].
    + intros i k Hi.
      apply (IH i k (SelectThreadsToDelete _ all_threads));
        [reflexivity | lia].
Qed.

End Soundness.

(** X1. The menu machine terminates on every script: from any pending
    call, a script of [n] lines is answered within [n + 1] nested calls,
    more fuel changes nothing, and the call returns or raises leaving a
    suffix of the script unread. *)
Theorem menu_machine_terminates (tz : Z -> Z) (input : list string)
        (clk : clock) (c : call) (fuel : nat) :
  List.length input < fuel ->
  run tz fuel input clk c = select tz input clk c /\
  ((exists sel rest k,
       select tz input clk c = Returned sel rest k /\
       List.length rest <= List.length input) \/
   (exists e rest k,
       select tz input clk c = Raised e rest k /\
       List.length rest <= List.length input)).
Proof.
  intros Hfuel. split; [now apply run_select|].
  pose proof (select_settled tz input clk c) as H.
  destruct (select tz input clk c) as [sel rest k|e rest k|]; simpl in H.
  - left. eauto.
  - right. eauto.
  - contradiction.
Qed.

Lemma menu_machine_terminates_witness :
  run Scenario.utc 7 ["2"; "1"; "2"] Scenario.frozen
      (main_menu Scenario.pair)
  = select Scenario.utc ["2"; "1"; "2"] Scenario.frozen
           (main_menu Scenario.pair).
Proof.
  apply (@menu_machine_terminates Scenario.utc ["2"; "1"; "2"]
           Scenario.frozen (main_menu Scenario.pair) 7).
  simpl. lia.
Defined.

(** X2. Whatever the operator types, a selection returned by a menu is
    taken from the fetched threads: it is the list of fetched threads
    with some of them left out, in the order of discovery, and the lines
    not read are a suffix of the script. *)
Theorem selection_is_taken_from_fetched (tz : Z -> Z) (input : list string)
        (clk : clock) (c : call) (sel : list Thread) (rest : list string)
        (k : clock) :
  fresh c ->
  select tz input clk c = Returned (Some sel) rest k ->
  kept_from (threads_of c) sel /\ is_suffix rest input.
Proof.
  intros Hfresh Hsel.
  pose proof (@run_sound tz (S (List.length input)) input clk c Hfresh
                         (Nat.lt_succ_diag_r _)) as H.
  fold (select tz input clk c) in H. rewrite Hsel in H.
  simpl in H. tauto.
Qed.

Lemma selection_is_taken_from_fetched_witness :
  kept_from Scenario.pair [Scenario.idle_thread] /\
  is_suffix ["yes"] ["2"; "1"; "2"; "yes"].
Proof.
  apply (@selection_is_taken_from_fetched Scenario.utc
           ["2"; "1"; "2"; "yes"] Scenario.frozen
           (main_menu Scenario.pair) [Scenario.idle_thread] ["yes"]
           Scenario.frozen).
  - reflexivity.
  - reflexivity.
Defined.



(** ** The gates before "delete all", previewing and reviewing *)

(** X4. [confirm_delete_all] hands over all the threads only after three
    answers: "1", then the phrase "DELETE ALL" to the letter, then "yes" in
    any letter case. An answer that fails a gate sends the operator back to
    the main menu, on fresh categories, with the lines that follow it. *)
Theorem confirm_delete_all_gates (tz : Z -> Z) (all_threads : list Thread)
        (a b c : string) (rest : list string) (clk : clock) :
  let confirm input := select tz input clk (ConfirmDeleteAll all_threads) in
  let main input := select tz input clk (main_menu all_threads) in
  (a = "1" -> b = "DELETE ALL" -> Py.lower c = "yes" ->
   confirm (a :: b :: c :: rest) = Returned (Some all_threads) rest clk) /\
  (a <> "1" -> confirm (a :: rest) = main rest) /\
  (b <> "DELETE ALL" -> confirm ("1" :: b :: rest) = main rest) /\
  (Py.lower c <> "yes" ->
   confirm ("1" :: "DELETE ALL" :: c :: rest) = main rest) /\
  confirm ("1" :: "delete all" :: rest) = main rest /\
  confirm ["1"; "DELETE ALL"] = Raised Py.EOFError [] clk.
Proof.
  intros confirm main. subst confirm main.
  repeat match goal with |- _ /\ _ => split end.
  - intros -> -> Hc. unfold select.
    remember (List.length ("1" :: "DELETE ALL" :: c :: rest)) as n.
    cbn [run]. rewrite Hc. reflexivity.
  - intros Ha. unfold select at 1.
    remember (List.length (a :: rest)) as n eqn:Hn.
    cbn [run]. destruct (String.eqb_spec a "1"); [contradiction|].
    cbn [negb]. apply run_select. simpl in Hn. lia.
  - intros Hb. unfold select at 1.
    remember (List.length ("1" :: b :: rest)) as n eqn:Hn.
    cbn [run]. destruct (String.eqb_spec b "DELETE ALL"); [contradiction|].
    cbn [negb String.eqb Ascii.eqb Bool.eqb].
    apply run_select. simpl in Hn. lia.
  - intros Hc. unfold select at 1.
    remember (List.length ("1" :: "DELETE ALL" :: c :: rest)) as n eqn:Hn.
    cbn [run]. destruct (String.eqb_spec (Py.lower c) "yes"); [contradiction|].
    cbn [negb String.eqb Ascii.eqb Bool.eqb].
    apply run_select. simpl in Hn. lia.
  - unfold select at 1.
    remember (List.length ("1" :: "delete all" :: rest)) as n eqn:Hn.
    cbn [run negb String.eqb Ascii.eqb Bool.eqb].
    apply run_select. simpl in Hn. lia.
  - reflexivity.
Qed.

Lemma confirm_delete_all_gates_witness :
  select Scenario.utc ["1"; "DELETE ALL"; "Yes"; "yes"] Scenario.frozen
         (ConfirmDeleteAll Scenario.five)
  = Returned (Some Scenario.five) ["yes"] Scenario.frozen.
Proof.
  apply (confirm_delete_all_gates Scenario.utc Scenario.five
           "1" "DELETE ALL" "Yes" ["yes"] Scenario.frozen);
    reflexivity.
Defined.

Section Paging5.

Variable tz : Z -> Z.

Lemma select_cons (line : string) (rest : list string) (clk : clock)
      (c : call) :
  select tz (line :: rest) clk c
  = run tz (S (S (List.length rest))) (line :: rest) clk c.
Proof. reflexivity. Qed.

(** X5. Previewing never produces a selection: from any page of a
    non-empty preview, and from the preview of an empty list, the call
    either runs out of script or carries on as the main menu, on fresh
    categories, after at least one line has been read. *)
Theorem preview_returns_to_main_menu (all_threads : list Thread) :
  forall (input : list string) (start_index : nat) (clk : clock),
    all_threads = [] \/ start_index < List.length all_threads ->
    select tz input clk (PreviewAllThreads all_threads start_index)
    = Raised Py.EOFError [] clk \/
    exists rest,
      is_suffix rest input /\ List.length rest < List.length input /\
      select tz input clk (PreviewAllThreads all_threads start_index)
      = select tz rest clk (main_menu all_threads).
Proof.
  induction input as [|choice rest IH]; intros start_index clk Hpos.
  - left. unfold select. cbn [run List.length].
    destruct (List.length all_threads =? 0) eqn:E0; [reflexivity|].
    destruct (start_index <? List.length all_threads) eqn:E; [reflexivity|].
    apply Nat.ltb_ge in E. apply Nat.eqb_neq in E0.
    destruct Hpos as [->|Hlt]; simpl in *; lia.
  - assert (Hmain : exists rest0,
               is_suffix rest0 (choice :: rest) /\
               List.length rest0 < List.length (choice :: rest) /\
               run tz (S (List.length rest)) rest clk (main_menu all_threads)
               = select tz rest0 clk (main_menu all_threads)).
    { exists rest. split; [apply is_suffix_cons, is_suffix_refl|].
      split; [simpl; lia | reflexivity]. }
    assert (Hnext : forall i,
               i < List.length all_threads ->
               run tz (S (List.length rest)) rest clk
                   (PreviewAllThreads all_threads i)
               = Raised Py.EOFError [] clk \/
               exists rest0,
                 is_suffix rest0 (choice :: rest) /\
                 List.length rest0 < List.length (choice :: rest) /\
                 run tz (S (List.length rest)) rest clk
                     (PreviewAllThreads all_threads i)
                 = select tz rest0 clk (main_menu all_threads)).
    { intros i Hi. destruct (IH i clk (or_intror Hi))
        as [E|(rest0 & Hs & Hl & E)]; [left; exact E|].
      right. exists rest0. split; [now apply is_suffix_cons|].
      split; [simpl; lia | exact E]. }
    rewrite select_cons. remember (S (List.length rest)) as n eqn:Hn.
    cbn [run]. fold (main_menu all_threads). subst n.
    destruct (List.length all_threads =? 0) eqn:E0; [right; exact Hmain|].
    destruct (start_index <? List.length all_threads) eqn:E1.
    + destruct (Nat.ltb_spec (Nat.min (start_index + 5)
                                      (List.length all_threads))
                             (List.length all_threads)) as [Hlt|Hge];
        [|right; exact Hmain].
      destruct (String.eqb choice "1"); [now apply Hnext|].
      destruct (String.eqb choice "2"); [right; exact Hmain|].
      now apply Hnext.
    + apply Nat.ltb_ge in E1. apply Nat.eqb_neq in E0.
      destruct Hpos as [->|Hlt]; simpl in *; lia.
Qed.

(** X6. Reviewing never narrows a selection: the call runs out of script,
    or returns the very list it was given, or is cancelled, which means
    the main menu on fresh categories when threads were fetched and the
    empty selection when none were. *)
Theorem review_is_all_or_nothing (threads all_threads : list Thread) :
  forall (input : list string) (start_index : nat) (clk : clock),
    let r := select tz input clk
               (ReviewThreads threads all_threads start_index) in
    r = Raised Py.EOFError [] clk \/
    exists rest,
      is_suffix rest input /\
      (r = Returned (Some threads) rest clk \/
       (all_threads <> [] /\
        r = select tz rest clk (main_menu all_threads)) \/
       (all_threads = [] /\ r = Returned (Some []) rest clk)).
Proof.
  induction input as [|choice rest IH]; intros start_index clk r; subst r.
  - unfold select. cbn [run List.length].
    destruct (start_index <? List.length threads); [left; reflexivity|].
    right. exists []. split; [apply is_suffix_refl | left; reflexivity].
  - assert (S1 : is_suffix rest (choice :: rest))
      by (apply is_suffix_cons, is_suffix_refl).
    assert (Hcancel :
      exists rest0,
        is_suffix rest0 (choice :: rest) /\
        (match all_threads with
         | _ :: _ => run tz (S (List.length rest)) rest clk
                         (main_menu all_threads)
         | [] => Returned (Some []) rest clk
         end = Returned (Some threads) rest0 clk \/
         (all_threads <> [] /\
          match all_threads with
          | _ :: _ => run tz (S (List.length rest)) rest clk
                          (main_menu all_threads)
          | [] => Returned (Some []) rest clk
          end = select tz rest0 clk (main_menu all_threads)) \/
         (all_threads = [] /\
          match all_threads with
          | _ :: _ => run tz (S (List.length rest)) rest clk
                          (main_menu all_threads)
          | [] => Returned (Some []) rest clk
          end = Returned (Some []) rest0 clk))).
    { exists rest. split; [exact S1|].
      destruct all_threads; [right; right; auto|].
      right; left. split; [discriminate | reflexivity]. }
    assert (Hnext : forall i,
      run tz (S (List.length rest)) rest clk
          (ReviewThreads threads all_threads i)
      = Raised Py.EOFError [] clk \/
      exists rest0,
        is_suffix rest0 (choice :: rest) /\
        (run tz (S (List.length rest)) rest clk
             (ReviewThreads threads all_threads i)
         = Returned (Some threads) rest0 clk \/
         (all_threads <> [] /\
          run tz (S (List.length rest)) rest clk
              (ReviewThreads threads all_threads i)
          = select tz rest0 clk (main_menu all_threads)) \/
         (all_threads = [] /\
          run tz (S (List.length rest)) rest clk
              (ReviewThreads threads all_threads i)
          = Returned (Some []) rest0 clk))).
    { intros i. destruct (IH i clk) as [E|(rest0 & Hs & E)];
        [left; exact E|].
      right. exists rest0. split; [now apply is_suffix_cons | exact E]. }
    rewrite select_cons. remember (S (List.length rest)) as n eqn:Hn.
    cbn [run]. fold (main_menu all_threads). subst n.
    destruct (start_index <? List.length threads).
    + destruct (_ <? _).
      * destruct (String.eqb choice "1"); [apply Hnext|].
        destruct (String.eqb choice "2");
          [right; exists rest; split; [exact S1 | left; reflexivity]|].
        destruct (String.eqb choice "3"); [right; exact Hcancel|].
        apply Hnext.
      * destruct (String.eqb choice "1");
          [right; exists rest; split; [exact S1 | left; reflexivity]|].
        destruct (String.eqb choice "2"); [right; exact Hcancel|].
        right; exists rest; split; [exact S1 | left; reflexivity].
    + right. exists (choice :: rest).
      split; [apply is_suffix_refl | left; reflexivity].
Qed.

End Paging5.

Lemma preview_returns_to_main_menu_witness :
  select Scenario.utc ["x"; "7"] Scenario.frozen
         (PreviewAllThreads Scenario.five 0)
  = Raised Py.EOFError [] Scenario.frozen \/
  exists rest,
    is_suffix rest ["x"; "7"] /\ List.length rest < 2 /\
    select Scenario.utc ["x"; "7"] Scenario.frozen
           (PreviewAllThreads Scenario.five 0)
    = select Scenario.utc rest Scenario.frozen (main_menu Scenario.five).
Proof.
  apply (@preview_returns_to_main_menu Scenario.utc Scenario.five ["x"; "7"] 0
           Scenario.frozen).
  right. simpl. lia.
Defined.


Lemma review_is_all_or_nothing_witness :
  select Scenario.utc ["1"; "9"] Scenario.frozen
         (ReviewThreads Scenario.five Scenario.five 0)
  = Raised Py.EOFError [] Scenario.frozen \/
  exists rest,
    is_suffix rest ["1"; "9"] /\
    (select Scenario.utc ["1"; "9"] Scenario.frozen
            (ReviewThreads Scenario.five Scenario.five 0)
     = Returned (Some Scenario.five) rest Scenario.frozen \/
     (Scenario.five <> [] /\
      select Scenario.utc ["1"; "9"] Scenario.frozen
             (ReviewThreads Scenario.five Scenario.five 0)
      = select Scenario.utc rest Scenario.frozen
               (main_menu Scenario.five)) \/
     (Scenario.five = [] /\
      select Scenario.utc ["1"; "9"] Scenario.frozen
             (ReviewThreads Scenario.five Scenario.five 0)
      = Returned (Some []) rest Scenario.frozen)).
Proof.
  apply (@review_is_all_or_nothing Scenario.utc Scenario.five Scenario.five
           ["1"; "9"] 0 Scenario.frozen).
Defined.

Example review_second_page_accepts :
  select Scenario.utc ["1"; "9"] Scenario.frozen
         (ReviewThreads (Scenario.five ++ [Scenario.plain "f"])
                        Scenario.five 0)
  = Returned (Some (Scenario.five ++ [Scenario.plain "f"])) []
             Scenario.frozen.
Proof. reflexivity. Qed.

(** ** The number printed next to an entry selects it *)

Lemma rev_string_twice (s a b : string) :
  Py.rev_string b (Py.rev_string a s) = Py.rev_string (String.append s b) a.
Proof.
  revert a b. induction s as [|c s IH]; intros a b; simpl; [reflexivity|].
  rewrite IH. reflexivity.
Qed.

Lemma append_empty_r (s : string) : String.append s "" = s.
Proof. induction s; simpl; congruence. Qed.

Lemma lstrip_no_space (s : string) : no_space s = true -> Py.lstrip s = s.
Proof.
  destruct s as [|c r]; simpl; [reflexivity|].
  destruct (Py.isspace c); [discriminate | reflexivity].
Qed.

Lemma rev_string_no_space (s a : string) :
  no_space s = true -> no_space a = true ->
  no_space (Py.rev_string a s) = true.
Proof.
  revert a. induction s as [|c s IH]; intros a Hs Ha; simpl in *;
    [assumption|].
  apply andb_true_iff in Hs as [Hc Hs]. apply IH; [assumption|].
  simpl. now rewrite Hc, Ha.
Qed.

Lemma strip_no_space (s : string) : no_space s = true -> Py.strip s = s.
Proof.
  intros H. unfold Py.strip. rewrite (lstrip_no_space _ H).
  rewrite lstrip_no_space by (now apply rev_string_no_space).
  rewrite rev_string_twice. simpl. apply append_empty_r.
Qed.

Lemma string_of_uint_no_space (d : Decimal.uint) :
  no_space (NilEmpty.string_of_uint d) = true.
Proof. induction d; simpl; auto. Qed.

Lemma int_digits_uint (d : Decimal.uint) :
  forall a : nat,
    Py.int_digits (Z.of_nat a) true (NilEmpty.string_of_uint d)
    = Some (Z.of_nat (Nat.of_uint_acc d a)).
Proof.
  induction d; intros a; cbn [NilEmpty.string_of_uint Nat.of_uint_acc];
    [reflexivity|..];
    cbn [Py.int_digits];
    match goal with
    | |- context [Py.isdigit ?c] =>
        change (Py.isdigit c) with true;
        let v := eval vm_compute in (Py.digit_val c) in
        change (Py.digit_val c) with v
    end;
    cbv iota; rewrite <- IHd; f_equal;
    rewrite ?Nat2Z.inj_succ, Nat.tail_mul_spec, Nat2Z.inj_mul; simpl; lia.
Qed.

(** [int(str(n))] is [n]. *)
Lemma int_str_nat (n : nat) : Py.int (Py.str_nat n) = Some (Z.of_nat n).
Proof.
  unfold Py.str_nat, NilZero.string_of_uint.
  pose proof (DecimalNat.Unsigned.of_to n) as Hn. unfold Nat.of_uint in Hn.
  destruct (Nat.to_uint n) as [|d|d|d|d|d|d|d|d|d|d] eqn:E;
    [simpl in Hn; subst n; reflexivity|..];
    unfold Py.int;
    (rewrite strip_no_space
      by (apply (string_of_uint_no_space (_ d))
          || (rewrite <- E; apply string_of_uint_no_space)));
    cbn [NilEmpty.string_of_uint];
    rewrite <- Hn;
    match goal with
    | |- context [Nat.of_uint_acc ?u 0] =>
        rewrite <- (int_digits_uint u 0)
    end; reflexivity.
Qed.

Section BucketMenuFacts.

Variable tz : Z -> Z.

Lemma unfold_select_status (by_status : dict (list Thread))
      (all_threads : list Thread) (input : list string) (clk : clock) :
  select tz input clk (SelectByStatus by_status all_threads)
  = bucket_menu (keys by_status) by_status
      (fun threads inp k =>
         run tz (List.length input) inp k
             (ReviewThreads threads all_threads 0))
      (fun inp k =>
         run tz (List.length input) inp k
             (SelectByStatus by_status all_threads))
      (fun inp k => run tz (List.length input) inp k (main_menu all_threads))
      input clk.
Proof. reflexivity. Qed.

Lemma unfold_select_graph (by_graph : dict (list Thread))
      (all_threads : list Thread) (input : list string) (clk : clock) :
  select tz input clk (SelectByGraph by_graph all_threads)
  = bucket_menu (keys by_graph) by_graph
      (fun threads inp k =>
         run tz (List.length input) inp k
             (ReviewThreads threads all_threads 0))
      (fun inp k =>
         run tz (List.length input) inp k
             (SelectByGraph by_graph all_threads))
      (fun inp k => run tz (List.length input) inp k (main_menu all_threads))
      input clk.
Proof. reflexivity. Qed.

Lemma unfold_select_runs (by_runs : dict (list Thread))
      (all_threads : list Thread) (input : list string) (clk : clock)
      (labels : list string) :
  runs_categories by_runs = Some labels ->
  select tz input clk (SelectByRuns by_runs all_threads)
  = bucket_menu labels by_runs
      (fun threads inp k =>
         run tz (List.length input) inp k
             (ReviewThreads threads all_threads 0))
      (fun inp k =>
         run tz (List.length input) inp k
             (SelectByRuns by_runs all_threads))
      (fun inp k => run tz (List.length input) inp k (main_menu all_threads))
      input clk.
Proof. intros H. unfold select. cbn [run]. rewrite H. reflexivity. Qed.

(** X7. At the status, graph and runs menus a number that is not the
    position of an entry is handled in two ways: the number just after the
    last entry goes back to the main menu on fresh categories; any other
    number, zero and negative numbers included, ends the selection with
    nothing selected. *)
Theorem bucket_menus_numbers_off_the_list (by_x : dict (list Thread))
        (all_threads : list Thread) (choice : string) (rest : list string)
        (clk : clock) (n : Z) :
  Py.int choice = Some n ->
  let input := choice :: rest in
  let last := Z.of_nat (List.length (keys by_x)) in
  (n = last + 1 ->
   select tz input clk (SelectByStatus by_x all_threads)
   = select tz rest clk (main_menu all_threads) /\
   select tz input clk (SelectByGraph by_x all_threads)
   = select tz rest clk (main_menu all_threads))%Z /\
  (n < 1 \/ last + 1 < n ->
   select tz input clk (SelectByStatus by_x all_threads)
   = Returned (Some []) rest clk /\
   select tz input clk (SelectByGraph by_x all_threads)
   = Returned (Some []) rest clk)%Z /\
  (forall labels,
      runs_categories by_x = Some labels ->
      (n = Z.of_nat (List.length labels) + 1 ->
       select tz input clk (SelectByRuns by_x all_threads)
       = select tz rest clk (main_menu all_threads))%Z /\
      (n < 1 \/ Z.of_nat (List.length labels) + 1 < n ->
       select tz input clk (SelectByRuns by_x all_threads)
       = Returned (Some []) rest clk)%Z).
Proof.
  intros Hint input last. subst input last.
  split; [|split].
  - intros ->. rewrite unfold_select_status, unfold_select_graph.
    rewrite !bucket_menu_back by assumption. split; reflexivity.
  - intros Hn. rewrite unfold_select_status, unfold_select_graph.
    rewrite !bucket_menu_out_of_range with (n := n) by assumption.
    split; reflexivity.
  - intros labels Hl. rewrite (unfold_select_runs _ _ _ _ Hl). split.
    + intros ->. rewrite bucket_menu_back by assumption. reflexivity.
    + intros Hn.
      now rewrite bucket_menu_out_of_range with (n := n) by assumption.
Qed.

(** X8. The number printed next to a status, [i + 1] for the [i]-th key of
    the status index, followed by "2" (delete immediately), selects the
    threads with that status, all of them and in the order of discovery;
    the same holds at the graph menu for the threads filed under a graph
    identifier. *)
Theorem printed_number_selects_its_bucket (all_threads : list Thread)
        (i : nat) (label : string) (rest : list string) (clk : clock) :
  let input := Py.str_nat (i + 1) :: "2" :: rest in
  (nth_error (keys (byStatus (categorize_threads all_threads))) i
   = Some label ->
   select tz input clk
          (SelectByStatus (byStatus (categorize_threads all_threads))
                          all_threads)
   = Returned
       (Some (filter (fun t => String.eqb (status_of t) label) all_threads))
       rest clk) /\
  (nth_error (keys (byGraph (categorize_threads all_threads))) i
   = Some label ->
   select tz input clk
          (SelectByGraph (byGraph (categorize_threads all_threads))
                         all_threads)
   = Returned (Some (filter (keyed graph_id_of label) all_threads))
              rest clk).
Proof.
  intros input. subst input.
  assert (Hint : Py.int (Py.str_nat (i + 1)) = Some (Z.of_nat i + 1)%Z)
    by (rewrite int_str_nat; f_equal; lia).
  split; intros Hnth.
  - rewrite unfold_select_status.
    apply bucket_menu_pick with (i := i) (label := label);
      [assumption | assumption |].
    rewrite byStatus_group, group_get.
    apply nth_error_In, dict_get_key in Hnth. destruct Hnth as [b Hb].
    rewrite byStatus_group, group_get in Hb.
    unfold keyed in *.
    destruct (filter _ all_threads); [discriminate | reflexivity].
  - rewrite unfold_select_graph.
    apply bucket_menu_pick with (i := i) (label := label);
      [assumption | assumption |].
    rewrite byGraph_group, group_get.
    apply nth_error_In, dict_get_key in Hnth. destruct Hnth as [b Hb].
    rewrite byGraph_group, group_get in Hb.
    destruct (filter _ all_threads); [discriminate | reflexivity].
Qed.

End BucketMenuFacts.

Lemma bucket_menus_numbers_off_the_list_witness :
  select Scenario.utc ["0"; "7"] Scenario.frozen
         (SelectByStatus (byStatus (categorize_threads Scenario.pair))
                         Scenario.pair)
  = Returned (Some []) ["7"] Scenario.frozen /\
  select Scenario.utc ["0"; "7"] Scenario.frozen
         (SelectByGraph (byStatus (categorize_threads Scenario.pair))
                        Scenario.pair)
  = Returned (Some []) ["7"] Scenario.frozen.
Proof.
  apply (@bucket_menus_numbers_off_the_list Scenario.utc
           (byStatus (categorize_threads Scenario.pair)) Scenario.pair
           "0" ["7"] Scenario.frozen 0%Z).
  - reflexivity.
  - left. lia.
Defined.

Lemma printed_number_selects_its_bucket_witness :
  select Scenario.utc [Py.str_nat (1 + 1); "2"] Scenario.frozen
         (SelectByStatus (byStatus (categorize_threads Scenario.pair))
                         Scenario.pair)
  = Returned
      (Some (filter (fun t => String.eqb (status_of t) "completed")
                    Scenario.pair))
      [] Scenario.frozen.
Proof.
  apply (@printed_number_selects_its_bucket Scenario.utc Scenario.pair 1
           "completed" [] Scenario.frozen).
  reflexivity.
Defined.

(** ** The order of the indexes *)

Lemma first_seen_In (l : list string) (x : string) :
  In x (first_seen l) <-> In x l.
Proof.
  induction l as [|a l IH]; simpl; [reflexivity|].
  rewrite filter_In, negb_true_iff, IH.
  destruct (String.eqb_spec x a) as [->|Hne]; split; intros H; auto.
  - destruct H as [H|[H _]]; [now left | now right].
  - destruct H as [H|H]; [congruence|]. right. auto.
Qed.

Lemma filter_not_in (l : list string) (a : string) :
  ~ In a l -> filter (fun y => negb (String.eqb y a)) l = l.
Proof.
  intros H. apply filter_all_true. intros x Hx.
  destruct (String.eqb_spec x a); [subst; contradiction | reflexivity].
Qed.

Lemma first_seen_snoc (l : list string) (x : string) :
  first_seen (l ++ [x])
  = if in_dec string_dec x l then first_seen l else first_seen l ++ [x].
Proof.
  induction l as [|a l IH]; simpl; [reflexivity|].
  rewrite IH. destruct (in_dec string_dec x l) as [Hin|Hnin].
  - destruct (string_dec a x); reflexivity.
  - rewrite filter_app. simpl.
    destruct (string_dec a x) as [->|Hne].
    + rewrite String.eqb_refl. simpl. now rewrite app_nil_r.
    + destruct (String.eqb_spec x a); [congruence|]. reflexivity.
Qed.

Lemma keys_group_in (key : Thread -> option string) (l : list Thread)
      (k : string) :
  In k (keys (group key l)) <-> In k (key_stream key l).
Proof.
  unfold key_stream. rewrite in_flat_map. split.
  - intros H. apply dict_get_key in H. destruct H as [b Hb].
    rewrite group_get in Hb.
    destruct (filter (keyed key k) l) as [|t ts] eqn:E; [discriminate|].
    assert (Ht : In t (filter (keyed key k) l)) by (rewrite E; now left).
    apply filter_In in Ht. destruct Ht as [Hin Hk].
    apply keyed_iff in Hk. exists t. rewrite Hk. simpl. auto.
  - intros (t & Hin & Hk). destruct (key t) as [k'|] eqn:E; [|contradiction].
    destruct Hk as [<-|[]].
    destruct (group_has_bucket key l t Hin E) as (b & Hb & _).
    change k' with (fst (k', b)). now apply in_map.
Qed.

Lemma keys_group_first_seen (key : Thread -> option string)
      (l : list Thread) :
  keys (group key l) = first_seen (key_stream key l).
Proof.
  induction l as [|t l IH] using rev_ind; [reflexivity|].
  rewrite group_snoc. unfold key_stream in *. rewrite flat_map_app. simpl.
  unfold group_step. destruct (key t) as [k|].
  - simpl. rewrite first_seen_snoc.
    destruct (in_dec string_dec k _) as [Hin|Hnin].
    + rewrite keys_bucket_append_old; [exact IH|].
      now apply keys_group_in.
    + rewrite keys_bucket_append_new; [now rewrite IH|].
      intros H. apply Hnin. now apply keys_group_in.
  - simpl. rewrite app_nil_r. exact IH.
Qed.

(** X9. The indexes of [categorize_threads] keep the order of discovery:
    the statuses, the run-count labels and the graph identifiers appear as
    keys in the order in which they are first met in the input, and every
    bucket lists its threads in input order. *)
Theorem categories_keep_discovery_order (threads : list Thread) :
  let c := categorize_threads threads in
  keys (byStatus c) = first_seen (map status_of threads) /\
  keys (byRuns c)
  = first_seen (map (fun t => runs_category (run_count t)) threads) /\
  keys (byGraph c) = first_seen (key_stream graph_id_of threads) /\
  (forall k b, In (k, b) (byStatus c) ->
     b = filter (fun t => String.eqb (status_of t) k) threads) /\
  (forall k b, In (k, b) (byRuns c) ->
     b = filter (fun t => String.eqb (runs_category (run_count t)) k)
                threads) /\
  (forall k b, In (k, b) (byGraph c) ->
     b = filter (keyed graph_id_of k) threads).
Proof.
  intros c. subst c. rewrite byStatus_group, byRuns_group, byGraph_group.
  assert (Hstream : forall f : Thread -> string,
             key_stream (fun t => Some (f t)) threads = map f threads).
  { intros f. unfold key_stream. induction threads; simpl; congruence. }
  rewrite !keys_group_first_seen, !Hstream.
  repeat split; intros k b H; apply group_entry in H; apply H.
Qed.

Example discovery_order_of_runs :
  keys (byRuns (categorize_threads
                  (Scenario.mixed_runs ++ [Scenario.with_runs "w" 30])))
  = ["20+ runs"; "0 runs"; "5-9 runs"].
Proof. reflexivity. Qed.

(** ** Discovery: probing and paging *)

Section DiscoveryFacts.

Variable base_url : string.
Variable ServerState : Type.
Variable serve : ServerState -> Request -> Reply * ServerState.

(** X10. Probing asks the candidate endpoints in order, one request each,
    and stops at the first reply with a success status: that endpoint is
    adopted, the ones after it are never asked. A reply with an error
    status and a request that raises both move on to the next candidate;
    when no candidate is left, none is adopted and all were asked. *)
Theorem probe_adopts_first_success (endpoints : list Endpoint) :
  forall net : Net ServerState,
    let found := fst (probe serve endpoints net) in
    let net' := snd (probe serve endpoints net) in
    exists tried,
      sent net' = sent net ++ map probe_request tried /\
      server net' = snd (serve_all serve (server net)
                                   (map probe_request tried)) /\
      let verdicts :=
        map accepted (fst (serve_all serve (server net)
                                     (map probe_request tried))) in
      match found with
      | Some e =>
          exists before after,
            endpoints = before ++ e :: after /\
            tried = before ++ [e] /\
            verdicts = repeat false (List.length before) ++ [true]
      | None =>
          tried = endpoints /\
          verdicts = repeat false (List.length endpoints)
      end.
Proof.
  induction endpoints as [|e more IH]; intros net; simpl.
  - exists []. simpl. rewrite app_nil_r. auto.
  - unfold send.
    destruct (serve (server net) (probe_request e)) as [reply s] eqn:Hs.
    assert (Hrefused :
      accepted reply = false ->
      let p := probe serve more (mkNet s (sent net ++ [probe_request e])) in
      exists tried,
        sent (snd p) = sent net ++ map probe_request tried /\
        server (snd p)
        = snd (serve_all serve (server net) (map probe_request tried)) /\
        match fst p with
        | Some e0 =>
            exists before after,
              e :: more = before ++ e0 :: after /\
              tried = before ++ [e0] /\
              map accepted (fst (serve_all serve (server net)
                                           (map probe_request tried)))
              = repeat false (List.length before) ++ [true]
        | None =>
            tried = e :: more /\
            map accepted (fst (serve_all serve (server net)
                                         (map probe_request tried)))
            = repeat false (List.length (e :: more))
        end).
    { intros Hrej p. subst p.
      destruct (IH (mkNet s (sent net ++ [probe_request e])))
        as (tried & Hsent & Hserver & Hfound).
      cbn [sent server] in Hsent, Hserver, Hfound.
      exists (e :: tried). simpl. rewrite Hs.
      destruct (serve_all serve s (map probe_request tried))
        as [replies s''] eqn:Hall. simpl in *.
      split; [rewrite Hsent, <- app_assoc; reflexivity|].
      split; [exact Hserver|].
      destruct (fst (probe serve more _)) as [e0|].
      - destruct Hfound as (before & after & -> & -> & Hv).
        exists (e :: before), after. simpl. rewrite Hrej, Hv. auto.
      - destruct Hfound as [-> Hv]. rewrite Hrej, Hv. auto. }
    destruct reply as [response|msg].
    + destruct (ok response) eqn:Hok.
      * exists [e]. simpl. rewrite Hs. simpl.
        split; [reflexivity|]. split; [reflexivity|].
        exists [], more. simpl. rewrite Hok. auto.
      * apply Hrefused. exact Hok.
    + apply Hrefused. reflexivity.
Qed.



End DiscoveryFacts.

Example probe_adopts_search_endpoint :
  fst (probe (Scenario.paged Scenario.three)
             (endpoints_to_try "http://host") (mkNet tt []))
  = Some Scenario.search.
Proof. reflexivity. Qed.


(** ** The URLs of the page requests *)

Lemma contains_append (c : ascii) (a b : string) :
  Py.contains c (String.append a b) = Py.contains c a || Py.contains c b.
Proof.
  induction a as [|x a IH]; simpl; [reflexivity|].
  rewrite IH. now rewrite orb_assoc.
Qed.

Lemma split_on_nonempty (c : ascii) (s : string) : Py.split_on c s <> [].
Proof.
  destruct s as [|a r]; simpl; [discriminate|].
  destruct (Ascii.eqb a c); [discriminate|].
  destruct (Py.split_on c r); discriminate.
Qed.

(** The first field of [s.split(c)] is [s] up to its first [c]. *)
Lemma hd_split_on (c : ascii) (u q : string) :
  Py.contains c u = false ->
  hd "" (Py.split_on c u) = u /\
  hd "" (Py.split_on c (String.append u (String c q))) = u.
Proof.
  induction u as [|a u IH]; simpl.
  - intros _. rewrite Ascii.eqb_refl. auto.
  - intros H. apply orb_false_iff in H as [Ha Hu].
    rewrite Ha. destruct (IH Hu) as [IH1 IH2].
    pose proof (split_on_nonempty c u) as N1.
    pose proof (split_on_nonempty c (String.append u (String c q))) as N2.
    destruct (Py.split_on c u); [contradiction|].
    destruct (Py.split_on c (String.append u (String c q)));
      [contradiction|].
    simpl in *. now subst.
Qed.

Lemma append_assoc (a b c : string) :
  String.append (String.append a b) c = String.append a (String.append b c).
Proof. induction a; simpl; congruence. Qed.

(** X12. With a base URL free of ['?'], the page requests are: on the
    search endpoint, a POST of limit 1000 and the offset; on either GET
    endpoint, from the second page on, a GET of
    [base/threads?limit=1000&offset=N], the query of the endpoint being
    replaced; and for the first page the very request used for probing, so
    the plain [base/threads] endpoint is first asked without a limit. *)
Theorem page_request_urls (base_url : string) (offset : nat) :
  Py.contains "?" base_url = false ->
  let search := mkEndpoint (String.append base_url "/threads/search") MPost in
  let plain := mkEndpoint (String.append base_url "/threads") MGet in
  let limited :=
    mkEndpoint (String.append base_url "/threads?limit=1000") MGet in
  endpoints_to_try base_url = [search; plain; limited] /\
  Forall (fun e => page_request e 0 = probe_request e)
         (endpoints_to_try base_url) /\
  page_request search offset
  = POST (String.append base_url "/threads/search") 1000 offset /\
  (0 < offset ->
   page_request plain offset
   = GET (String.append base_url
            (String.append "/threads?limit=1000&offset="
                           (Py.str_nat offset))) /\
   page_request limited offset = page_request plain offset).
Proof.
  intros Hbase search plain limited. subst search plain limited.
  split; [reflexivity|]. split; [repeat constructor|].
  split; [reflexivity|].
  intros Hpos. unfold page_request. cbn [ep_method ep_url].
  apply Nat.ltb_lt in Hpos. rewrite Hpos.
  assert (Hu : Py.contains "?" (String.append base_url "/threads") = false)
    by (rewrite contains_append, Hbase; reflexivity).
  destruct (hd_split_on "?" (String.append base_url "/threads")
                        "limit=1000" Hu) as [H1 H2].
  rewrite append_assoc in H2. simpl in H2.
  change (String.append base_url "/threads?limit=1000")
    with (String.append base_url
            (String "/" (String "t" (String "h" (String "r" (String "e"
               (String "a" (String "d" (String "s" (String "?"
                  "limit=1000")))))))))).
  rewrite H1, H2, !append_assoc. split; reflexivity.
Qed.

Lemma page_request_urls_witness :
  page_request (mkEndpoint "http://host/threads?limit=1000" MGet) 1000
  = page_request (mkEndpoint "http://host/threads" MGet) 1000.
Proof.
  apply (@page_request_urls "http://host" 1000 eq_refl). lia.
Defined.

(** A base URL that carries a query loses it, path included, from the
    second page on. *)
Example page_request_cuts_at_question_mark :
  page_request (mkEndpoint "http://host/api?v=2/threads" MGet) 1000
  = GET "http://host/api?limit=1000&offset=1000".
Proof. reflexivity. Qed.

(** ** Deletion and the session as a whole *)

Section SessionFacts.

Variable base_url : string.
Variable ServerState : Type.
Variable serve : ServerState -> Request -> Reply * ServerState.
Variable tz : Z -> Z.

(** X13. [delete_threads] touches the network in one case only: the
    selection is not empty and the line read is "yes" in some letter case.
    Then every thread of the selection gets its DELETE, in order, and the
    number returned is at most their number. In every other case (no
    selection, empty selection, another answer, no answer left) the
    network is exactly as before and the result is 0 or [EOFError]. *)
Theorem delete_threads_sends_only_after_yes
        (threads_to_delete : option (list Thread)) (input : list string)
        (net : Net ServerState) :
  let d := delete_threads base_url serve threads_to_delete input net in
  (exists threads confirm rest n,
      threads_to_delete = Some threads /\ threads <> [] /\
      input = confirm :: rest /\ Py.lower confirm = "yes" /\
      sent (net_after d)
      = sent net ++ map (delete_request base_url) threads /\
      input_left d = rest /\
      returned d = Value n /\ n <= List.length threads) \/
  (net_after d = net /\
   (returned d = Value 0 \/ returned d = Raise Py.EOFError)).
Proof.
  intros d. subst d. unfold delete_threads.
  destruct threads_to_delete as [[|t ts]|]; [right; auto| |right; auto].
  destruct input as [|confirm rest]; [right; auto|].
  destruct (String.eqb_spec (Py.lower confirm) "yes") as [Hyes|Hno];
    [|right; auto].
  left. cbn [negb].
  set (total := List.length (t :: ts)).
  destruct (delete_loop base_url serve total (t :: ts)
              (mkTally 0 0 net [Deleting total]))
    as (Hsent & lines & _ & _ & _ & Hsum).
  cbn [deleted failed net_of] in Hsent, Hsum.
  eexists (t :: ts), confirm, rest, _.
  cbn [net_after input_left returned].
  repeat split; try reflexivity; try assumption; try discriminate.
  fold total. lia.
Qed.


(** X14. In a session that runs to its end, every DELETE goes to a thread
    that discovery returned: the requests sent after discovery are the
    DELETEs of the fetched threads with some left out, in the order of
    discovery; the number reported deleted is at most their number; and
    if any was sent, one of the lines typed was "yes" in some letter
    case. *)
Theorem session_deletes_only_fetched_threads (fuel : nat)
        (input : list string) (clk : clock) (net : Net ServerState)
        (total_deleted : nat) (d : Deletion ServerState) :
  interactive_clean base_url serve tz fuel input clk net
  = Finished total_deleted d ->
  exists working_endpoint net1 all_threads net2 f,
    probe serve (endpoints_to_try base_url) net
    = (Some working_endpoint, net1) /\
    fetch_pages serve fuel working_endpoint 0 [] net1
    = Fetched all_threads net2 /\
    all_threads <> [] /\
    sent (net_after d)
    = sent net2 ++ map (delete_request base_url) (filter f all_threads) /\
    total_deleted <= List.length (filter f all_threads) /\
    (filter f all_threads <> [] ->
     exists line, In line input /\ Py.lower line = "yes").
Proof.
  unfold interactive_clean.
  destruct (probe serve (endpoints_to_try base_url) net)
    as [[ep|] net1]; [|discriminate].
  destruct (fetch_pages serve fuel ep 0 [] net1)
    as [all net2|e net2|] eqn:Hfetch; try discriminate.
  destruct (List.length all =? 0) eqn:Hlen; [discriminate|].
  pose proof (@run_sound tz (S (List.length input)) input clk
                (SelectThreadsToDelete (categorize_threads all) all)
                eq_refl (Nat.lt_succ_diag_r _)) as Hsound.
  fold (select tz input clk
               (SelectThreadsToDelete (categorize_threads all) all))
    in Hsound.
  destruct (select tz input clk
                   (SelectThreadsToDelete (categorize_threads all) all))
    as [sel rest k|e rest k|]; try discriminate.
  cbn [sound threads_of] in Hsound. destruct Hsound as [Hsuffix Hkept].
  pose proof (delete_threads_sends_only_after_yes sel rest net2) as Hd.
  cbv zeta in Hd.
  destruct (returned (delete_threads base_url serve sel rest net2))
    as [n|e] eqn:Hret; [|discriminate].
  intros [= <- <-].
  exists ep, net1, all, net2.
  assert (Hall : all <> [])
    by (intros ->; simpl in Hlen; discriminate).
  destruct Hd as [(threads & confirm & rest' & n' & -> & Hne & -> & Hyes
                   & Hsent & _ & Hn' & Hle)|[Hnet Hret0]].
  - destruct Hkept as [f ->]. exists f.
    repeat split; try assumption; try reflexivity.
    + injection Hn' as Hn'. subst n'. exact Hle.
    + intros _. exists confirm. split; [|exact Hyes].
      destruct Hsuffix as [consumed ->]. apply in_or_app. right. now left.
  - exists (fun _ => false).
    assert (E : filter (fun _ : Thread => false) all = [])
      by (clear; induction all; simpl; congruence).
    rewrite E, Hnet. simpl. rewrite app_nil_r.
    repeat split; try assumption; try reflexivity.
    + destruct Hret0 as [H|H]; [injection H as ->; lia | discriminate].
    + intros H. contradiction.
Qed.


End SessionFacts.

Example delete_threads_without_yes :
  map (fun answer =>
         net_after (delete_threads "http://host" Scenario.third_raises
                      (Some Scenario.five) answer (mkNet 0 [])))
      [["nope"]; []; ["y"; "yes"]]
  = [mkNet 0 []; mkNet 0 []; mkNet 0 []].
Proof. reflexivity. Qed.

Lemma session_deletes_only_fetched_threads_witness :
  exists working_endpoint net1 all_threads net2 f,
    probe (Scenario.paged Scenario.pair) (endpoints_to_try "http://host")
          (mkNet tt [])
    = (Some working_endpoint, net1) /\
    fetch_pages (Scenario.paged Scenario.pair) 2 working_endpoint 0 [] net1
    = Fetched all_threads net2 /\
    all_threads <> [] /\
    sent (net_after
            (delete_threads "http://host" (Scenario.paged Scenario.pair)
               (Some [Scenario.idle_thread]) ["yes"]
               (mkNet tt [POST "http://host/threads/search" 1000 0;
                          POST "http://host/threads/search" 1000 0;
                          POST "http://host/threads/search" 1000 2])))
    = sent net2
      ++ map (delete_request "http://host") (filter f all_threads) /\
    1 <= List.length (filter f all_threads) /\
    (filter f all_threads <> [] ->
     exists line, In line ["2"; "1"; "2"; "yes"] /\ Py.lower line = "yes").
Proof.
  apply (@session_deletes_only_fetched_threads "http://host" unit
           (Scenario.paged Scenario.pair) Scenario.utc 2
           ["2"; "1"; "2"; "yes"] Scenario.frozen (mkNet tt []) 1).
  reflexivity.
Defined.

(** ** The time menus at their edges *)

Section TimeMenuFacts.

Variable tz : Z -> Z.

(** X16. The fixed windows of the time menu are nested: at one reading
    of the clock, what "last hour" keeps is kept by "last week", what
    "last week" keeps is kept by "last month", and, once the clock is
    thirty days past the epoch, what "last month" keeps is kept by "all
    time". *)
Theorem time_windows_are_nested (all_threads : list Thread) (now : Z)
        (hour week month ever : Z) (t : Thread) :
  window_start "1" now = Some hour ->
  window_start "2" now = Some week ->
  window_start "3" now = Some month ->
  window_start "4" now = Some ever ->
  (In t (threads_in_window tz hour now all_threads) ->
   In t (threads_in_window tz week now all_threads)) /\
  (In t (threads_in_window tz week now all_threads) ->
   In t (threads_in_window tz month now all_threads)) /\
  (30 * 86400 * 1000000 <= now ->
   In t (threads_in_window tz month now all_threads) ->
   In t (threads_in_window tz ever now all_threads))%Z.
Proof.
  intros [= <-] [= <-] [= <-] [= <-]. unfold us_per_second.
  repeat split; intros; rewrite threads_in_window_In in *;
    match goal with
    | H : _ /\ exists ts, _ |- _ =>
        destruct H as [Hin (ts & Hts & Hrange)];
        split; [exact Hin | exists ts; split; [exact Hts | lia]]
    end.
Qed.

(** X17. The time menu asks again, after reading the clock once, when the
    choice is none of "1" to "6" and when the window chosen holds no
    thread, so that an empty window is never handed over as a selection;
    "6" goes to the main menu on fresh categories. *)
Theorem time_menu_asks_again (all_threads : list Thread) (choice : string)
        (rest : list string) (clk : clock) :
  let again := select tz rest (tick clk) (SelectByTime all_threads) in
  (window_start choice (clk 0) = None ->
   choice <> "5" -> choice <> "6" ->
   select tz (choice :: rest) clk (SelectByTime all_threads) = again) /\
  (forall start_time,
      window_start choice (clk 0) = Some start_time ->
      threads_in_window tz start_time (clk 0) all_threads = [] ->
      select tz (choice :: rest) clk (SelectByTime all_threads) = again) /\
  (choice = "6" ->
   select tz (choice :: rest) clk (SelectByTime all_threads)
   = select tz rest (tick clk) (main_menu all_threads)).
Proof.
  intros again. subst again. split; [|split].
  - intros Hw H5 H6. unfold select at 1.
    remember (List.length (choice :: rest)) as n eqn:Hn.
    cbn [run]. rewrite Hw.
    destruct (String.eqb_spec choice "5"); [contradiction|].
    destruct (String.eqb_spec choice "6"); [contradiction|].
    apply run_select. simpl in Hn. lia.
  - intros start_time Hw He. now apply select_by_time_empty with start_time.
  - intros ->. unfold select at 1.
    remember (List.length ("6" :: rest)) as n eqn:Hn.
    cbn [run]. change (window_start "6" (clk 0)) with (@None Z).
    cbn [String.eqb Ascii.eqb Bool.eqb].
    apply run_select. simpl in Hn. lia.
Qed.

(** X18. The date prompt asks again, without reading the clock, when the
    text is not a date it can read. When the cutoff is not in the future
    and no thread was created before it, the next line decides: "1" asks
    for another date, anything else goes to the time menu. *)
Theorem date_prompt_asks_again (all_threads : list Thread)
        (cutoff_date : string) (rest : list string) (clk : clock) :
  (parse_cutoff tz cutoff_date = None ->
   select tz (cutoff_date :: rest) clk (SelectCustomDateRange all_threads)
   = select tz rest clk (SelectCustomDateRange all_threads)) /\
  (forall cutoff_time line rest',
      parse_cutoff tz cutoff_date = Some cutoff_time ->
      (cutoff_time <= clk 0%nat)%Z ->
      threads_before tz cutoff_time all_threads = [] ->
      rest = line :: rest' ->
      (line = "1" ->
       select tz (cutoff_date :: rest) clk
              (SelectCustomDateRange all_threads)
       = select tz rest' (tick clk) (SelectCustomDateRange all_threads)) /\
      (line <> "1" ->
       select tz (cutoff_date :: rest) clk
              (SelectCustomDateRange all_threads)
       = select tz rest' (tick clk) (SelectByTime all_threads))).
Proof.
  split.
  - intros Hp. unfold select at 1.
    remember (List.length (cutoff_date :: rest)) as n eqn:Hn.
    cbn [run]. rewrite Hp. apply run_select. simpl in Hn. lia.
  - intros cutoff_time line rest' Hp Hnow He ->.
    assert (Hgt : (cutoff_time >? clk 0%nat)%Z = false)
      by (rewrite Z.gtb_ltb; apply Z.ltb_ge; lia).
    split; intros Hline; unfold select at 1;
      remember (List.length (cutoff_date :: line :: rest')) as n eqn:Hn;
      cbn [run]; rewrite Hp, Hgt, He; cbn [List.length Nat.eqb].
    + subst line. cbn [String.eqb Ascii.eqb Bool.eqb].
      apply run_select. simpl in Hn. lia.
    + destruct (String.eqb_spec line "1"); [contradiction|].
      apply run_select. simpl in Hn. lia.
Qed.

End TimeMenuFacts.

Lemma time_windows_are_nested_witness :
  In Scenario.on_the_hour
     (threads_in_window Scenario.utc
        (Scenario.noon - 7 * 24 * 60 * 60 * 1000000)%Z Scenario.noon
        [Scenario.too_old; Scenario.on_the_hour]).
Proof.
  refine (proj1 (@time_windows_are_nested Scenario.utc
                   [Scenario.too_old; Scenario.on_the_hour] Scenario.noon
                   _ _ _ _ Scenario.on_the_hour
                   eq_refl eq_refl eq_refl eq_refl) _).
  vm_compute. left. reflexivity.
Defined.

Example date_prompt_refuses_text :
  select Scenario.utc ["next week"; "15/01/2024"; "2024-01-15"; "2"]
         Scenario.frozen (SelectCustomDateRange Scenario.pair)
  = Returned (Some [Scenario.idle_thread]) [] (tick Scenario.frozen).
Proof. reflexivity. Qed.

(** ** Leaving without deleting *)

Section LeavingFacts.

Variable base_url : string.
Variable ServerState : Type.
Variable serve : ServerState -> Request -> Reply * ServerState.
Variable tz : Z -> Z.

(** X19. At the main menu every line other than "1" to "6" ends the
    selection with no selection at all, "7" and unrecognised text alike;
    the session then finishes with 0 deleted, without reading another
    line and without sending a request after discovery. *)
Theorem leaving_the_main_menu_deletes_nothing (fuel : nat) (choice : string)
        (rest : list string) (clk : clock) (net net1 net2 : Net ServerState)
        (working_endpoint : Endpoint) (all_threads : list Thread) :
  ~ In choice ["1"; "2"; "3"; "4"; "5"; "6"] ->
  probe serve (endpoints_to_try base_url) net
  = (Some working_endpoint, net1) ->
  fetch_pages serve fuel working_endpoint 0 [] net1
  = Fetched all_threads net2 ->
  all_threads <> [] ->
  select tz (choice :: rest) clk (main_menu all_threads)
  = Returned None rest clk /\
  interactive_clean base_url serve tz fuel (choice :: rest) clk net
  = Finished 0 (mkDeletion (Value 0) rest net2 []).
Proof.
  intros Hchoice Hprobe Hfetch Hne.
  assert (Hsel : select tz (choice :: rest) clk (main_menu all_threads)
                 = Returned None rest clk).
  { unfold select, main_menu.
    remember (List.length (choice :: rest)) as n eqn:Hn. cbn [run].
    repeat match goal with
           | |- context [String.eqb choice ?k] =>
               destruct (String.eqb_spec choice k);
               [exfalso; apply Hchoice; subst; simpl; tauto|]
           end.
    destruct (String.eqb choice "7"); reflexivity. }
  split; [exact Hsel|].
  unfold interactive_clean. rewrite Hprobe, Hfetch.
  destruct all_threads as [|t ts]; [contradiction|].
  cbn [List.length Nat.eqb]. unfold main_menu in Hsel. rewrite Hsel.
  reflexivity.
Qed.

End LeavingFacts.

Lemma leaving_the_main_menu_deletes_nothing_witness :
  select Scenario.utc ["quit"; "yes"] Scenario.frozen
         (main_menu Scenario.pair)
  = Returned None ["yes"] Scenario.frozen /\
  interactive_clean "http://host" (Scenario.paged Scenario.pair)
    Scenario.utc 2 ["quit"; "yes"] Scenario.frozen (mkNet tt [])
  = Finished 0
      (mkDeletion (Value 0) ["yes"]
         (mkNet tt [POST "http://host/threads/search" 1000 0;
                    POST "http://host/threads/search" 1000 0;
                    POST "http://host/threads/search" 1000 2]) []).
Proof.
  apply (@leaving_the_main_menu_deletes_nothing "http://host" unit
           (Scenario.paged Scenario.pair) Scenario.utc 2 "quit" ["yes"]
           Scenario.frozen (mkNet tt [])
           (mkNet tt [POST "http://host/threads/search" 1000 0])
           (mkNet tt [POST "http://host/threads/search" 1000 0;
                      POST "http://host/threads/search" 1000 0;
                      POST "http://host/threads/search" 1000 2])
           Scenario.search Scenario.pair).
  - simpl. intros H.
    repeat (destruct H as [H|H]; [discriminate|]). exact H.
  - reflexivity.
  - reflexivity.
  - discriminate.
Defined.

(** ** The sort key of the runs menu on arbitrary labels *)

Lemma with_keys_none (l : list string) :
  with_keys l = None <-> exists c, In c l /\ get_runs_value c = None.
Proof.
  induction l as [|c l IH]; simpl.
  - split; [discriminate | intros (c & [] & _)].
  - destruct (get_runs_value c) as [v|] eqn:Hc.
    + destruct (with_keys l) as [r|].
      * split; [discriminate|]. intros (c' & [<-|Hin] & Hn); [congruence|].
        assert (H : Some r = None) by (apply IH; eauto). discriminate.
      * split; [|reflexivity]. intros _.
        destruct (proj1 IH eq_refl) as (c' & Hin & Hn). eauto.
    + split; [|reflexivity]. intros _. exists c. auto.
Qed.

(** X20. The sort key of the runs menu fails on one kind of label only:
    one that contains a dash, is neither "0 runs" nor "1 run", and whose
    text before the first dash is not a number. With such a label among
    the keys the runs menu raises [ValueError] before it reads anything;
    with none, the menu is built, and a label the key does not know
    counts as 0. *)
Theorem runs_menu_key_errors (tz : Z -> Z) (by_runs : dict (list Thread))
        (all_threads : list Thread) (input : list string) (clk : clock) :
  (forall c, get_runs_value c = None <->
             c <> "0 runs" /\ c <> "1 run" /\ Py.contains "-" c = true /\
             Py.int (hd "" (Py.split_on "-" c)) = None) /\
  ((exists c, In c (keys by_runs) /\ get_runs_value c = None) ->
   select tz input clk (SelectByRuns by_runs all_threads)
   = Raised Py.ValueError input clk) /\
  ((forall c, In c (keys by_runs) -> Py.contains "-" c = false) ->
   exists labels, runs_categories by_runs = Some labels /\
                  Permutation labels (keys by_runs)) /\
  get_runs_value "many runs" = Some 0%Z /\
  get_runs_value "" = Some 0%Z.
Proof.
  assert (Hkey : forall c,
             get_runs_value c = None <->
             c <> "0 runs" /\ c <> "1 run" /\ Py.contains "-" c = true /\
             Py.int (hd "" (Py.split_on "-" c)) = None).
  { intros c. unfold get_runs_value.
    destruct (String.eqb_spec c "0 runs");
      [split; [discriminate | tauto]|].
    destruct (String.eqb_spec c "1 run");
      [split; [discriminate | tauto]|].
    destruct (Py.contains "-" c).
    - pose proof (split_on_nonempty "-" c) as N.
      destruct (Py.split_on "-" c) as [|w ws]; [contradiction|]. simpl.
      tauto.
    - split; [|intros (_ & _ & H & _); discriminate].
      destruct (String.eqb c "20+ runs"); [discriminate|].
      destruct (Py.split_ws c) as [|w ws]; [discriminate|].
      destruct (Py.int w); discriminate. }
  split; [exact Hkey|]. split; [|split; [|split; reflexivity]].
  - intros H. apply with_keys_none in H.
    unfold select. cbn [run]. unfold runs_categories. rewrite H. reflexivity.
  - intros Hdash. unfold runs_categories.
    destruct (with_keys (keys by_runs)) as [l|] eqn:E.
    + simpl. eexists. split; [reflexivity|].
      rewrite sort_keyed_perm.
      clear Hdash. revert l E.
      induction (keys by_runs) as [|c cs IH]; simpl; intros l E.
      * injection E as <-. reflexivity.
      * destruct (get_runs_value c); [|discriminate].
        destruct (with_keys cs); [|discriminate].
        injection E as <-. simpl. constructor. now apply IH.
    + apply with_keys_none in E. destruct E as (c & Hin & Hn).
      apply Hkey in Hn. destruct Hn as (_ & _ & Hc & _).
      rewrite (Hdash c Hin) in Hc. discriminate.
Qed.

Example runs_menu_key_raises :
  select Scenario.utc ["1"] Scenario.frozen
         (SelectByRuns [("x-y", Scenario.five)] Scenario.five)
  = Raised Py.ValueError ["1"] Scenario.frozen.
Proof. reflexivity. Qed.

(** ** A refused cutoff and the errors that follow it *)

(** X21. When the date prompt refuses a cutoff in the future, it asks
    again inside its own [try]: should anything that follows, down to a
    menu reached later, raise [ValueError], the exception is caught there
    and the date is asked once more from the lines that are left; any
    other outcome of what follows is the outcome of the prompt. *)
Theorem future_cutoff_catches_value_errors (tz : Z -> Z)
        (all_threads : list Thread) (cutoff_date : string)
        (cutoff_time : Z) (rest : list string) (clk : clock) :
  parse_cutoff tz cutoff_date = Some cutoff_time ->
  (clk 0%nat < cutoff_time)%Z ->
  select tz (cutoff_date :: rest) clk (SelectCustomDateRange all_threads)
  = match select tz rest (tick clk) (SelectCustomDateRange all_threads) with
    | Raised Py.ValueError rest2 clk2 =>
        select tz rest2 clk2 (SelectCustomDateRange all_threads)
    | outcome => outcome
    end.
Proof.
  intros Hp Hfuture.
  assert (Hgt : (cutoff_time >? clk 0%nat)%Z = true)
    by (rewrite Z.gtb_ltb; apply Z.ltb_lt; lia).
  unfold select at 1.
  remember (List.length (cutoff_date :: rest)) as n eqn:Hn.
  cbn [run]. rewrite Hp, Hgt. simpl in Hn. subst n.
  fold (select tz rest (tick clk) (SelectCustomDateRange all_threads)).
  pose proof (select_settled tz rest (tick clk)
                (SelectCustomDateRange all_threads)) as Hs.
  destruct (select tz rest (tick clk) (SelectCustomDateRange all_threads))
    as [sel i k|e i k|]; try reflexivity.
  destruct e; try reflexivity.
  apply run_select. simpl in Hs. lia.
Qed.

Lemma future_cutoff_catches_value_errors_witness :
  select Scenario.utc
         ["2999-01-01"; "2024-01-15"; "4"; "6"; "2"; "abc";
          "2024-01-15"; "2"]
         Scenario.frozen (SelectCustomDateRange Scenario.pair)
  = match select Scenario.utc
                 ["2024-01-15"; "4"; "6"; "2"; "abc"; "2024-01-15"; "2"]
                 (tick Scenario.frozen)
                 (SelectCustomDateRange Scenario.pair) with
    | Raised Py.ValueError rest2 clk2 =>
        select Scenario.utc rest2 clk2 (SelectCustomDateRange Scenario.pair)
    | outcome => outcome
    end.
Proof.
  apply (@future_cutoff_catches_value_errors Scenario.utc Scenario.pair
           "2999-01-01" 32472144000000000%Z).
  - reflexivity.
  - unfold Scenario.frozen, Scenario.noon. lia.
Defined.
